(** * ASGenius: greenwashing score, classification and browser storage

    A shallow embedding of [src/lib/gemini.ts] (score calculator and the
    post-processing of the model reply in [analyzeESGReport]) and of
    [src/lib/storage.ts] (analysis results and report sections kept in
    [localStorage]), followed by the properties of the specification that
    concern them.

    Conventions of the embedding:
    - a JavaScript number that holds a score is a [Z];
    - the string literal types ["Major" | "Minor"] are [string]s, so that a
      value outside the declared union can be written down;
    - [localStorage] holds texts; a text is represented by what [JSON.parse]
      makes of it ([item]), and [JSON.stringify] builds the text of a value;
    - a plain object used as a map from ids to records is the [gmap] of its
      own properties; reading and assigning a property by a computed key go
      through [get_property] and [set_property], which account for what
      every object inherits from [Object.prototype];
    - a function that touches [localStorage] or the console is a computation
      in the monad [JS]: it takes the browser state and gives back a
      completion (normal or thrown) together with the new state. *)

From stdpp Require Import base numbers strings list gmap.

Local Open Scope string_scope.
Local Open Scope list_scope.
Local Open Scope Z_scope.

(** ** Data model *)

(** One entry of [flagged_statements] in the model reply.  [risk_level] is
    [None] when the property is missing or is not a string. *)
Record FlaggedStatement := {
  statement : string;
  esg_category : string;
  reason : string;
  risk_level : option string
}.

#[global] Instance FlaggedStatement_eq_dec : EqDecision FlaggedStatement.
Proof. solve_decision. Defined.

(** ** JavaScript completions

    What a [throw] carries, and how a call ends. *)

Inductive exn :=
  | DOMException
  | SyntaxError
  | TypeError
  | Error (message : string).

Inductive completion (A : Type) :=
  | Normal (a : A)
  | Throw (e : exn).
Arguments Normal {A} & a.
Arguments Throw {A} e.

#[global] Instance exn_eq_dec : EqDecision exn.
Proof. solve_decision. Defined.

(** ** Score calculator (gemini.ts) *)

Module Gemini.

Definition MAJOR_WEIGHT : Z := 15.
Definition MINOR_WEIGHT : Z := 5.
Definition BASE_SCORE : Z := 10.

(** [flaggedStatements.filter(statement => statement.risk_level === "Major").length] *)
Definition majorCount (flaggedStatements : list FlaggedStatement) : Z :=
  Z.of_nat (length (filter (λ s, risk_level s = Some "Major") flaggedStatements)).

(** [flaggedStatements.filter(statement => statement.risk_level === "Minor").length] *)
Definition minorCount (flaggedStatements : list FlaggedStatement) : Z :=
  Z.of_nat (length (filter (λ s, risk_level s = Some "Minor") flaggedStatements)).

(** [calculateGreenwashingScore].  The argument is an array, so the
    [!flaggedStatements] half of the first test never fires. *)
Definition calculateGreenwashingScore (flaggedStatements : list FlaggedStatement) : Z :=
  if decide (length flaggedStatements = 0%nat) then 0
  else
    let score := BASE_SCORE + majorCount flaggedStatements * MAJOR_WEIGHT
                            + minorCount flaggedStatements * MINOR_WEIGHT in
    Z.min score 100.

(** ** Post-processing of the model reply (gemini.ts, [analyzeESGReport]) *)

(** What [parsedResult.flagged_statements] can hold after [JSON.parse], by
    what [analyzeESGReport] and [calculateGreenwashingScore] do with it.  An
    entry of an array that is a number, a string or a boolean has no
    [risk_level], like an object without that property, and is represented as
    such an object; an entry [null] is not, because reading [risk_level] of
    [null] raises a [TypeError]. *)
Inductive flagged_field :=
  | FlaggedFalsy                             (* missing, [null] or another falsy value *)
  | FlaggedArray (l : list FlaggedStatement) (* an array without [null] entries, empty or not *)
  | FlaggedArrayWithNull                     (* an array with a [null] entry *)
  | FlaggedLengthZero                        (* an object that is no array, with [length: 0] *)
  | FlaggedOther.                            (* any other truthy value *)

(** The fields of the parsed reply that the function reads or writes; the
    other fields ([report_metadata], [frameworks_claimed], ...) pass through
    untouched. *)
Record ParsedResult := {
  confidence_score : Z;
  classification : string;
  flagged_statements : flagged_field
}.

(** What came back from the [fetch] of the Gemini endpoint. *)
Inductive GeminiReply :=
  | FetchRejected                          (* [fetch] itself rejects *)
  | NotOk (status : string)                (* [!response.ok] *)
  | NoGeneratedText                        (* no [candidates[0].content.parts[0].text] *)
  | GeneratedText (parsed : option ParsedResult).
      (* [JSON.parse(cleanedText)]; [None] when it throws, or gives [null],
         whose [flagged_statements] cannot be read *)

(** [analyzeESGReport(pdfText)], as a function of the reply of the remote
    model; a rejected promise is a [Throw].  Inside the inner [try],
    [calculateGreenwashingScore] returns 0 for a value whose [length] is 0
    before it reaches [.filter]; an array with a [null] entry raises a
    [TypeError] in the callback of [.filter], and any other truthy value that
    is no array raises one because it has no [.filter]; the inner [catch]
    turns both into the malformed-output error, like a [JSON.parse] that
    throws. *)
Definition analyzeESGReport (pdfText : string) (reply : GeminiReply)
  : completion ParsedResult :=
  if decide (pdfText = "") then Throw (Error "PDF text is empty or null.")
  else
    match reply with
    | FetchRejected => Throw TypeError
    | NotOk status => Throw (Error ("Gemini API error: " +:+ status))
    | NoGeneratedText => Throw (Error "No text was generated by the model.")
    | GeneratedText None =>
        Throw (Error "Failed to get a valid JSON response from the AI. The output was malformed.")
    | GeneratedText (Some parsedResult) =>
        match flagged_statements parsedResult with
        | FlaggedFalsy => Normal parsedResult
        | FlaggedArray l =>
            let score := calculateGreenwashingScore l in
            Normal {| confidence_score := score;
                      classification :=
                        if decide (score > 70) then "Major" else "Minor";
                      flagged_statements := FlaggedArray l |}
        | FlaggedLengthZero =>
            let score := 0 in
            Normal {| confidence_score := score;
                      classification :=
                        if decide (score > 70) then "Major" else "Minor";
                      flagged_statements := FlaggedLengthZero |}
        | FlaggedArrayWithNull | FlaggedOther =>
            Throw (Error "Failed to get a valid JSON response from the AI. The output was malformed.")
        end
    end.

End Gemini.

(** ** Browser state and the [JS] monad *)

Module Storage.

(** [interface AnalysisResult] *)
Record AnalysisResult := {
  classification : string;
  confidenceScore : Z
}.

(** [interface Section] *)
Record Section := {
  id : string;
  name : string;
  reports : list string   (* Array of report IDs *)
}.

#[global] Instance AnalysisResult_eq_dec : EqDecision AnalysisResult.
Proof. solve_decision. Defined.
#[global] Instance Section_eq_dec : EqDecision Section.
Proof. solve_decision. Defined.

(** A text kept under a key, seen through [JSON.parse]: the empty text (falsy,
    and no JSON), a text on which [JSON.parse] throws, or the JSON text of a
    value of the type the code casts it to. *)
Inductive item (A : Type) :=
  | EmptyText
  | Malformed
  | Json (a : A).
Arguments EmptyText {A}.
Arguments Malformed {A}.
Arguments Json {A} a.

(** The two keys of storage.ts, each with the type its text is cast to. *)
Inductive key : Type → Type :=
  | ANALYSIS_RESULTS_KEY : key (gmap string AnalysisResult)  (* 'esg_analysis_results' *)
  | SECTIONS_KEY : key (list Section).                      (* 'esg_report_sections' *)

(** [window.localStorage]: what is kept under the two keys ([None]: no
    entry), and whether the browser currently refuses a kind of access
    (storage disabled or blocked, quota exceeded). *)
Record localStorage := {
  esg_analysis_results : option (item (gmap string AnalysisResult));
  esg_report_sections : option (item (list Section));
  getItem_throws : bool;
  setItem_throws : bool;
  removeItem_throws : bool
}.

Record Browser := {
  storage : localStorage;
  console : list string     (* lines written by console.error / console.log *)
}.

Definition JS (A : Type) : Type := Browser → completion A * Browser.

#[global] Instance JS_ret : MRet JS := λ A a w, (Normal a, w).
#[global] Instance JS_bind : MBind JS := λ A B f m w,
  match m w with
  | (Normal a, w') => f a w'
  | (Throw e, w') => (Throw e, w')
  end.

Definition throw {A} (e : exn) : JS A := λ w, (Throw e, w).

(** [try { body } catch (error) { handler }] *)
Definition try_catch {A} (body : JS A) (handler : exn → JS A) : JS A := λ w,
  match body w with
  | (Normal a, w') => (Normal a, w')
  | (Throw e, w') => handler e w'
  end.

Definition console_error (msg : string) : JS unit := λ w,
  (Normal (), {| storage := storage w; console := console w ++ [msg] |}).

Definition console_log (msg : string) : JS unit := λ w,
  (Normal (), {| storage := storage w; console := console w ++ [msg] |}).

Definition slot {A} (k : key A) (ls : localStorage) : option (item A) :=
  match k in key T return option (item T) with
  | ANALYSIS_RESULTS_KEY => esg_analysis_results ls
  | SECTIONS_KEY => esg_report_sections ls
  end.

Definition set_slot {A} (k : key A) (v : option (item A)) (ls : localStorage)
  : localStorage :=
  match k in key T return option (item T) → localStorage with
  | ANALYSIS_RESULTS_KEY => λ v,
      {| esg_analysis_results := v;
         esg_report_sections := esg_report_sections ls;
         getItem_throws := getItem_throws ls;
         setItem_throws := setItem_throws ls;
         removeItem_throws := removeItem_throws ls |}
  | SECTIONS_KEY => λ v,
      {| esg_analysis_results := esg_analysis_results ls;
         esg_report_sections := v;
         getItem_throws := getItem_throws ls;
         setItem_throws := setItem_throws ls;
         removeItem_throws := removeItem_throws ls |}
  end v.

(** [localStorage.getItem(key)]: [null] is [None]. *)
Definition getItem {A} (k : key A) : JS (option (item A)) := λ w,
  if getItem_throws (storage w) then (Throw DOMException, w)
  else (Normal (slot k (storage w)), w).

(** [localStorage.setItem(key, text)] *)
Definition setItem {A} (k : key A) (text : item A) : JS unit := λ w,
  if setItem_throws (storage w) then (Throw DOMException, w)
  else (Normal (), {| storage := set_slot k (Some text) (storage w);
                      console := console w |}).

(** [localStorage.removeItem(key)] *)
Definition removeItem {A} (k : key A) : JS unit := λ w,
  if removeItem_throws (storage w) then (Throw DOMException, w)
  else (Normal (), {| storage := set_slot k None (storage w);
                      console := console w |}).

(** [text || fallback] on what [getItem] returned: [null] and the empty
    string are falsy. *)
Definition or_text {A} (text : option (item A)) (fallback : item A) : item A :=
  match text with
  | None | Some EmptyText => fallback
  | Some t => t
  end.

Definition JSON_parse {A} (text : item A) : JS A :=
  match text with
  | Json a => mret a
  | EmptyText | Malformed => throw SyntaxError
  end.

Definition JSON_stringify {A} (a : A) : item A := Json a.

(** ** storage.ts *)

(** The property names every object inherits from [Object.prototype]: on an
    object that [JSON.parse] built, [results[key]] with one of these keys
    finds the inherited function (or, for '__proto__', the prototype itself)
    when the object has no own property of that name. *)
Definition Object_prototype : list string :=
  [ "constructor"; "__defineGetter__"; "__defineSetter__"; "hasOwnProperty";
    "__lookupGetter__"; "__lookupSetter__"; "isPrototypeOf"; "propertyIsEnumerable";
    "toString"; "valueOf"; "__proto__"; "toLocaleString" ].

(** What [results[key]] evaluates to when it is not [undefined]: a stored
    record, or what [Object.prototype] has under [key] (truthy, no record). *)
Inductive looked_up :=
  | Own (result : AnalysisResult)
  | Inherited (key : string).

Coercion Own : AnalysisResult >-> looked_up.

(** Lets [Some r] stand for [Some (Own r)] where a looked-up value is
    expected. *)
Arguments Some {A} & a.

#[global] Instance looked_up_eq_dec : EqDecision looked_up.
Proof. solve_decision. Defined.

(** [results[key]]; [undefined] is [None]. *)
Definition get_property (results : gmap string AnalysisResult) (key : string)
  : option looked_up :=
  match results !! key with
  | Some result => Some (Own result)
  | None => if decide (key ∈ Object_prototype) then Some (Inherited key) else None
  end.

(** [results[key] = result].  '__proto__' is an accessor of
    [Object.prototype]: on an object without an own property of that name
    the assignment replaces the prototype of [results] and adds no
    property. *)
Definition set_property (results : gmap string AnalysisResult) (key : string)
    (result : AnalysisResult) : gmap string AnalysisResult :=
  if decide (key = "__proto__" ∧ results !! key = None) then results
  else <[key := result]> results.

(** The character U+0022. *)
Definition quote : string := String (Ascii.ascii_of_nat 34) EmptyString.

(** [result.classification = c] *)
Definition set_classification (c : string) (result : AnalysisResult) : AnalysisResult :=
  {| classification := c; confidenceScore := confidenceScore result |}.

(** [section.reports = l] *)
Definition set_reports (l : list string) (section : Section) : Section :=
  {| id := id section; name := name section; reports := l |}.

(** Save an analysis result for a specific file *)
Definition saveAnalysisResult (fileId : string) (result : AnalysisResult) : JS unit :=
  try_catch
    (existingResultsStr ← getItem ANALYSIS_RESULTS_KEY;
     existingResults ← JSON_parse (or_text existingResultsStr (Json ∅));
     let result :=
       if decide (confidenceScore result > 55)
       then set_classification "Major" result
       else set_classification "Minor" result in
     let existingResults := set_property existingResults fileId result in
     setItem ANALYSIS_RESULTS_KEY (JSON_stringify existingResults))
    (λ error,
       console_error "Error saving analysis result:";;
       throw (Error "Failed to save analysis result")).

(** Get an analysis result for a specific file; [null] is [None].  Whatever
    [results[fileId]] finds is truthy, so [|| null] only turns [undefined]
    into [null]. *)
Definition getAnalysisResult (fileId : string) : JS (option looked_up) :=
  try_catch
    (resultsStr ← getItem ANALYSIS_RESULTS_KEY;
     results ← JSON_parse (or_text resultsStr (Json ∅));
     mret (get_property results fileId))
    (λ error,
       console_error "Error retrieving analysis result:";;
       mret None).

(** Get all analysis results *)
Definition getAllAnalysisResults : JS (gmap string AnalysisResult) :=
  try_catch
    (resultsStr ← getItem ANALYSIS_RESULTS_KEY;
     results ← JSON_parse (or_text resultsStr (Json ∅));
     let results :=
       (λ result,
          if decide (confidenceScore result > 55)
          then set_classification "Major" result
          else set_classification "Minor" result) <$> results in
     mret results)
    (λ error,
       console_error "Error retrieving all analysis results:";;
       mret ∅).

(** Clear all analysis results *)
Definition clearAllAnalysisResults : JS unit :=
  try_catch
    (removeItem ANALYSIS_RESULTS_KEY)
    (λ error, console_error "Error clearing analysis results:").

(** Update an existing analysis to use the new scoring system *)
Definition resetAndUpdateAllScores : JS unit :=
  try_catch
    (removeItem ANALYSIS_RESULTS_KEY;;
     console_log "All analysis results have been reset for recalculation")
    (λ error, console_error "Error resetting analysis results:").

(** Get all sections *)
Definition getSections : JS (list Section) :=
  try_catch
    (sectionsStr ← getItem SECTIONS_KEY;
     JSON_parse (or_text sectionsStr (Json [])))
    (λ error,
       console_error "Error retrieving sections:";;
       mret []).

(** Create a new section; [now] is the decimal text of [Date.now()] *)
Definition createSection (now : string) (name : string) : JS Section :=
  try_catch
    (sections ← getSections;
     let newSection := {| id := "section_" +:+ now; name := name; reports := [] |} in
     let sections := sections ++ [newSection] in
     setItem SECTIONS_KEY (JSON_stringify sections);;
     mret newSection)
    (λ error,
       console_error "Error creating section:";;
       throw (Error "Failed to create section")).

(** Remove report from all sections *)
Definition removeReportFromAllSections (reportId : string) : JS unit :=
  try_catch
    (sections ← getSections;
     let wasInSection := bool_decide (Exists (λ section, reportId ∈ reports section) sections) in
     let sections :=
       (λ section, set_reports (filter (λ id, id ≠ reportId) (reports section)) section)
         <$> sections in
     setItem SECTIONS_KEY (JSON_stringify sections);;
     if wasInSection
     then console_log ("Report " +:+ reportId +:+ " moved to " +:+ quote
                       +:+ "Not Yet Analyzed" +:+ quote +:+ " section")
     else mret ())
    (λ error,
       console_error "Error removing report from all sections:";;
       throw (Error "Failed to remove report from all sections")).

(** Add report to section.  [sections] is the array parsed before the call
    of [removeReportFromAllSections], which parses and writes its own copy;
    [section] is the first element of [sections] with the given id, found at
    index [i], and [section.reports.push] updates [sections] at [i]. *)
Definition addReportToSection (reportId sectionId : string) : JS unit :=
  try_catch
    (sections ← getSections;
     match list_find (λ s, id s = sectionId) sections with
     | Some (i, section) =>
         removeReportFromAllSections reportId;;
         if decide (reportId ∈ reports section) then mret ()
         else
           let sections :=
             <[i := set_reports (reports section ++ [reportId]) section]> sections in
           setItem SECTIONS_KEY (JSON_stringify sections)
     | None => mret ()
     end)
    (λ error,
       console_error "Error adding report to section:";;
       throw (Error "Failed to add report to section")).

(** Get section for a report; [undefined] is [None] *)
Definition getSectionForReport (reportId : string) : JS (option Section) :=
  try_catch
    (sections ← getSections;
     mret (snd <$> list_find (λ section, reportId ∈ reports section) sections))
    (λ error,
       console_error "Error getting section for report:";;
       mret None).

(** Delete report from storage and sections *)
Definition deleteReport (reportId : string) : JS unit :=
  try_catch
    (resultsStr ← getItem ANALYSIS_RESULTS_KEY;
     results ← JSON_parse (or_text resultsStr (Json ∅));
     (if decide (is_Some (get_property results reportId))
      then setItem ANALYSIS_RESULTS_KEY (JSON_stringify (delete reportId results))
      else mret ());;
     removeReportFromAllSections reportId)
    (λ error,
       console_error "Error deleting report:";;
       throw (Error "Failed to delete report")).

(** [section.name = n] *)
Definition set_name (n : string) (section : Section) : Section :=
  {| id := id section; name := n; reports := reports section |}.

(** Get section by ID; [undefined] is [None] *)
Definition getSectionById (sectionId : string) : JS (option Section) :=
  try_catch
    (sections ← getSections;
     mret (snd <$> list_find (λ section, id section = sectionId) sections))
    (λ error,
       console_error "Error retrieving section:";;
       mret None).

(** Update section name *)
Definition updateSectionName (sectionId : string) (name : string) : JS unit :=
  try_catch
    (sections ← getSections;
     match list_find (λ s, id s = sectionId) sections with
     | Some (i, section) =>
         let sections := <[i := set_name name section]> sections in
         setItem SECTIONS_KEY (JSON_stringify sections)
     | None => mret ()
     end)
    (λ error,
       console_error "Error updating section:";;
       throw (Error "Failed to update section")).

(** Delete section *)
Definition deleteSection (sectionId : string) : JS unit :=
  try_catch
    (sections ← getSections;
     let sections := filter (λ section, id section ≠ sectionId) sections in
     setItem SECTIONS_KEY (JSON_stringify sections))
    (λ error,
       console_error "Error deleting section:";;
       throw (Error "Failed to delete section")).

(** Remove report from a specific section *)
Definition removeReportFromSection (reportId sectionId : string) : JS unit :=
  try_catch
    (sections ← getSections;
     match list_find (λ s, id s = sectionId) sections with
     | Some (i, section) =>
         let sections :=
           <[i := set_reports (filter (λ id, id ≠ reportId) (reports section)) section]>
             sections in
         setItem SECTIONS_KEY (JSON_stringify sections)
     | None => mret ()
     end)
    (λ error,
       console_error "Error removing report from section:";;
       throw (Error "Failed to remove report from section")).

End Storage.

(** ** ESGCard.tsx *)

Module ESGCard.

(** The [classification] the card shows: from the score when there is one,
    the prop otherwise ([undefined] is [None]). *)
Definition classification (propClassification : option string)
    (confidenceScore : option Z) : option string :=
  match confidenceScore with
  | Some confidenceScore => Some (if decide (confidenceScore > 55) then "Major" else "Minor")
  | None => propClassification
  end.

End ESGCard.

(** ** ESGDashboard.tsx *)

Module ESGDashboard.

Import Storage.

Record ESGReport := {
  id : string;
  title : string;
  date : string;
  sources : Z;
  icon : string;
  filePath : option string;
  classification : option string;
  confidenceScore : option Z;
  sectionId : option string
}.

(** The API response of GET /api/pdfs. *)
Record PDFMetadata := {
  pdf_id : string;
  pdf_fileName : string;
  pdf_filePath : string;
  pdf_title : string;
  pdf_category : string;
  pdf_description : string;
  pdf_uploadDate : string;
  pdf_sources : Z
}.

(** The React state of the dashboard that the functions below read or set,
    and the toasts shown so far. *)
Record State := {
  reports : list ESGReport;
  sections : list Section;
  isLoading : bool;
  toasts : list string
}.

(** What [fetch('http://localhost:4000/api/pdfs')] came back with. *)
Inductive PdfsReply :=
  | FetchRejected
  | NotOk
  | Pdfs (data : list PDFMetadata).

(** JavaScript truthiness of a [string | undefined]. *)
Definition truthy (s : option string) : bool :=
  match s with
  | None | Some "" => false
  | Some _ => true
  end.

Section Load.

(** [getCategoryIcon] (a table of emoji) and [formatDate] (which depends on
    the locale data of the browser) are taken as given. *)
Variables (getCategoryIcon formatDate : string → string).

(** The callback of [data.map] in [loadReportsAndSections]. *)
Definition toReport (analysisResults : gmap string AnalysisResult) (pdf : PDFMetadata)
  : JS ESGReport :=
  let analysis := analysisResults !! pdf_id pdf in
  section ← getSectionForReport (pdf_id pdf);
  mret {| id := pdf_id pdf;
          title := pdf_title pdf;
          date := formatDate (pdf_uploadDate pdf);
          sources := pdf_sources pdf;
          icon := getCategoryIcon (pdf_category pdf);
          filePath := Some (pdf_filePath pdf);
          classification := Storage.classification <$> analysis;
          confidenceScore := Storage.confidenceScore <$> analysis;
          sectionId := Storage.id <$> section |}.

(** [loadReportsAndSections], from the React state [st] to the state after
    the call.  The storage functions called in the [try] cannot throw, so the
    [catch] only ever runs before [setSections]. *)
Definition loadReportsAndSections (reply : PdfsReply) (st : State) : JS State :=
  let st := {| reports := reports st; sections := sections st;
               isLoading := true; toasts := toasts st |} in
  st ← try_catch
    (match reply with
     | FetchRejected => throw TypeError
     | NotOk => throw (Error "Failed to fetch PDFs")
     | Pdfs data =>
         analysisResults ← getAllAnalysisResults;
         loadedSections ← getSections;
         fetchedReports ← mapM (toReport analysisResults) data;
         mret {| reports := fetchedReports; sections := loadedSections;
                 isLoading := isLoading st; toasts := toasts st |}
     end)
    (λ error,
       console_error "Error fetching PDFs:";;
       mret {| reports := reports st; sections := sections st;
               isLoading := isLoading st;
               toasts := toasts st ++ ["Failed to load reports"] |});
  mret {| reports := reports st; sections := sections st;
          isLoading := false; toasts := toasts st |}.

End Load.

(** Group reports by classification and sections *)
Definition isMajor (report : ESGReport) : bool :=
  (match confidenceScore report with
   | Some score => bool_decide (score > 55)
   | None => false
   end
   || bool_decide (classification report = Some "Major"))
  && negb (truthy (sectionId report)).

Definition isMinor (report : ESGReport) : bool :=
  (match confidenceScore report with
   | Some score => bool_decide (score ≤ 55) && bool_decide (classification report ≠ Some "Major")
   | None => false
   end
   || (bool_decide (classification report = Some "Minor")
       && bool_decide (confidenceScore report = None)))
  && negb (truthy (sectionId report)).

Definition isUncategorized (report : ESGReport) : bool :=
  negb (truthy (classification report))
  && bool_decide (confidenceScore report = None)
  && negb (truthy (sectionId report)).

Definition majorReports (reports : list ESGReport) : list ESGReport :=
  filter (λ report, isMajor report) reports.

Definition minorReports (reports : list ESGReport) : list ESGReport :=
  filter (λ report, isMinor report) reports.

Definition uncategorizedReports (reports : list ESGReport) : list ESGReport :=
  filter (λ report, isUncategorized report) reports.

(** Get reports for each custom section *)
Definition getReportsForSection (reports : list ESGReport) (sectionId' : string)
  : list ESGReport :=
  filter (λ report, sectionId report = Some sectionId') reports.

(** The cards of the report view once loading has ended, one [ESGCard] per
    entry, in the order the JSX lays them out: [sections.map] with the
    reports of each section (a section without reports renders [null]),
    then the Major, the Minor and the uncategorized group. *)
Definition cards (sections : list Section) (reports : list ESGReport) : list ESGReport :=
  concat ((λ section,
             let sectionReports := getReportsForSection reports (Storage.id section) in
             if decide (length sectionReports = 0%nat) then [] else sectionReports)
            <$> sections)
  ++ majorReports reports ++ minorReports reports ++ uncategorizedReports reports.

End ESGDashboard.

(** ** PDFViewer.tsx and GeminiESGPopup.tsx *)

Module PDFViewer.

(** [useState(100)] *)
Definition initialZoom : Z := 100.

Definition handleZoomIn (prev : Z) : Z := Z.min (prev + 25) 200.
Definition handleZoomOut (prev : Z) : Z := Z.max (prev - 25) 50.

End PDFViewer.

Module GeminiESGPopup.

(** [{ label, className }] *)
Definition getGreenwashingRisk (score : Z) : string * string :=
  if decide (score > 70) then ("Major", "text-red-400")
  else ("Minor", "text-yellow-400").

Definition getOverallClassification (score : Z) : string * string :=
  let riskLevel := if decide (score > 70) then "Major" else "Minor" in
  (riskLevel +:+ " cross checking needed",
   if decide (riskLevel = "Major") then "text-red-400" else "text-yellow-400").

End GeminiESGPopup.

(** ** The upload server (server.js) *)

Module Server.

Import Storage.

(** [s.replace(pattern, replacement)] with a string pattern: the first
    occurrence only. *)
Fixpoint replace (pattern replacement s : string) : string :=
  if String.prefix pattern s
  then replacement +:+ String.substring (String.length pattern)
                         (String.length s - String.length pattern) s
  else match s with
       | EmptyString => EmptyString
       | String c s' => String c (replace pattern replacement s')
       end.

Record PdfData := {
  id : string;
  fileName : string;
  filePath : string;
  title : string;
  category : string;
  description : string;
  uploadDate : string;
  sources : Z
}.

(** The content of db/pdfs.json. *)
Record DB := { pdfs : list PdfData }.

(** The part of the file system the server works on: db/pdfs.json ([None]:
    no such file), seen through [JSON.parse] like the browser texts, and
    whether reads and writes currently fail; the console of the process. *)
Record Disk := {
  pdfs_json : option (item DB);
  readFileSync_throws : bool;
  writeFileSync_throws : bool;
  console : list string
}.

Definition log (msg : string) (d : Disk) : Disk :=
  {| pdfs_json := pdfs_json d;
     readFileSync_throws := readFileSync_throws d;
     writeFileSync_throws := writeFileSync_throws d;
     console := console d ++ [msg] |}.

(** Helper function to read the database *)
Definition readDB (d : Disk) : DB * Disk :=
  if readFileSync_throws d
  then ({| pdfs := [] |}, log "Error reading database file:" d)
  else match pdfs_json d with
       | Some (Json db) => (db, d)
       | Some EmptyText | Some Malformed | None =>
           ({| pdfs := [] |}, log "Error reading database file:" d)
       end.

(** Helper function to write to the database *)
Definition writeDB (data : DB) (d : Disk) : bool * Disk :=
  if writeFileSync_throws d
  then (false, log "Error writing to database file:" d)
  else (true, {| pdfs_json := Some (Json data);
                 readFileSync_throws := readFileSync_throws d;
                 writeFileSync_throws := writeFileSync_throws d;
                 console := console d |}).

(** [req.file] as multer leaves it. *)
Record File := {
  originalname : string;
  filename : string
}.

Record UploadRequest := {
  file : option File;
  body_title : option string;
  body_category : option string;
  body_description : option string
}.

Inductive Body :=
  | ErrorBody (error : string)
  | UploadedBody (message fileName filePath : string)
  | PdfsBody (pdfs : list PdfData)
  | PdfBody (pdf : PdfData).

Record Response := {
  status : Z;
  body : Body
}.

(** [a || b] on a [string | undefined]. *)
Definition or_string (a : option string) (b : string) : string :=
  match a with
  | None | Some "" => b
  | Some a => a
  end.

(** POST /api/upload; [now] is the text of [Date.now()] and [iso] that of
    [new Date().toISOString()].  The [catch] of the handler (status 500) can
    only run when the parsed database has no [pdfs] array, which the type
    [DB] excludes; the result of [writeDB] is not looked at. *)
Definition upload (now iso : string) (req : UploadRequest) (d : Disk) : Response * Disk :=
  match file req with
  | None => ({| status := 400; body := ErrorBody "No file uploaded" |}, d)
  | Some file =>
      let pdfData :=
        {| id := now;
           fileName := originalname file;
           filePath := "/uploads/" +:+ filename file;
           title := or_string (body_title req) (replace ".pdf" "" (originalname file));
           category := or_string (body_category req) "Uncategorized";
           description := or_string (body_description req) "";
           uploadDate := iso;
           sources := 1 |} in
      let '(db, d) := readDB d in
      let db := {| pdfs := pdfs db ++ [pdfData] |} in
      let '(_, d) := writeDB db d in
      ({| status := 200;
          body := UploadedBody "File uploaded successfully" (originalname file)
                    ("/uploads/" +:+ filename file) |}, d)
  end.

(** GET /api/pdfs *)
Definition get_pdfs (d : Disk) : Response * Disk :=
  let '(db, d) := readDB d in
  ({| status := 200; body := PdfsBody (pdfs db) |}, d).

(** GET /api/pdfs/:id *)
Definition get_pdf (id' : string) (d : Disk) : Response * Disk :=
  let '(db, d) := readDB d in
  match list_find (λ p, id p = id') (pdfs db) with
  | None => ({| status := 404; body := ErrorBody "PDF not found" |}, d)
  | Some (_, pdf) => ({| status := 200; body := PdfBody pdf |}, d)
  end.

End Server.

Import Gemini.

(** ** The score calculator as the specification words it *)

(** Number of entries of [S] whose risk level is exactly [r]; an entry with
    another or a missing risk level adds nothing. *)
Fixpoint tally (r : string) (S : list FlaggedStatement) : Z :=
  match S with
  | [] => 0
  | s :: S' => (if decide (risk_level s = Some r) then 1 else 0) + tally r S'
  end.

(** [computeScore] of the specification, section 4.1. *)
Definition computeScore (S : list FlaggedStatement) : Z :=
  match S with
  | [] => 0
  | _ :: _ => Z.min (10 + 15 * tally "Major" S + 5 * tally "Minor" S) 100
  end.

Definition flagged (r : option string) : FlaggedStatement :=
  {| statement := "We are carbon neutral"; esg_category := "Environmental";
     reason := "no data"; risk_level := r |}.

Import Storage.

(** ** Vocabulary of the statements about storage *)

(** The records a store holds under 'esg_analysis_results', as the code reads
    them: no entry and the empty text both read as the empty object; [None]
    when the text does not parse. *)
Definition records_of (ls : localStorage) : option (gmap string AnalysisResult) :=
  match esg_analysis_results ls with
  | None | Some EmptyText => Some ∅
  | Some (Json results) => Some results
  | Some Malformed => None
  end.

(** The sections a store holds under 'esg_report_sections', as [getSections]
    reads them when [getItem] works: the array the text parses to, and the
    empty array when there is no text or it does not parse. *)
Definition sections_of (ls : localStorage) : list Section :=
  match esg_report_sections ls with
  | Some (Json sections) => sections
  | None | Some EmptyText | Some Malformed => []
  end.

(** The record [saveAnalysisResult] stores for a result. *)
Definition relabelled (result : AnalysisResult) : AnalysisResult :=
  {| Storage.classification := if decide (confidenceScore result > 55) then "Major" else "Minor";
     confidenceScore := confidenceScore result |}.

(** The sections of a list that have [reportId] among their reports. *)
Definition sections_holding (reportId : string) (sections : list Section) : list Section :=
  filter (λ section, reportId ∈ reports section) sections.

(** The invariant of the specification (section 3) on one record. *)
Definition consistent (result : AnalysisResult) : Prop :=
  Storage.classification result = "Major" ↔ confidenceScore result > 55.

(** The array [removeReportFromAllSections] writes back: every section with
    [reportId] filtered out of its reports. *)
Definition without (reportId : string) (sections : list Section) : list Section :=
  (λ section, set_reports (filter (λ id, id ≠ reportId) (reports section)) section)
    <$> sections.

(** A read operation of the reconciler, and a run of several of them. *)
Inductive read_op :=
  | Get (fileId : string)
  | GetAll.

Definition run_read (op : read_op) (w : Browser) : Browser :=
  match op with
  | Get fileId => snd (getAnalysisResult fileId w)
  | GetAll => snd (getAllAnalysisResults w)
  end.

Definition run_reads (ops : list read_op) (w : Browser) : Browser :=
  foldl (λ w op, run_read op w) w ops.

(** [addToSection] as the specification words it (section 4.3):
    [removeFromAllSections(reportId)] followed by appending [reportId] to the
    member list of the target section of the store as it then is, unless it
    is already there. *)
Definition addToSection (reportId sectionId : string) : JS unit :=
  removeReportFromAllSections reportId;;
  sections ← getSections;
  match list_find (λ s, id s = sectionId) sections with
  | Some (i, section) =>
      if decide (reportId ∈ reports section) then mret ()
      else setItem SECTIONS_KEY
             (JSON_stringify (<[i := set_reports (reports section ++ [reportId]) section]> sections))
  | None => mret ()
  end.

(** Clicks on the two zoom buttons of the PDF viewer, and the zoom after a
    run of clicks. *)
Inductive zoom_click :=
  | ZoomIn
  | ZoomOut.

Definition zoom_step (zoom : Z) (click : zoom_click) : Z :=
  match click with
  | ZoomIn => PDFViewer.handleZoomIn zoom
  | ZoomOut => PDFViewer.handleZoomOut zoom
  end.

Definition zoom_after (clicks : list zoom_click) : Z :=
  foldl zoom_step PDFViewer.initialZoom clicks.

(** The object literal that the PDF viewer passes to [saveAnalysisResult]
    after an analysis: [{ classification: output.classification,
    confidenceScore: output.confidence_score }]. *)
Definition saved_from (output : ParsedResult) : AnalysisResult :=
  {| Storage.classification := Gemini.classification output;
     confidenceScore := confidence_score output |}.

(** A dashboard report whose [classification] is of its declared type
    ["Major" | "Minor" | undefined]. *)
Definition declared (report : ESGDashboard.ESGReport) : Prop :=
  ESGDashboard.classification report = None
  ∨ ESGDashboard.classification report = Some "Major"
  ∨ ESGDashboard.classification report = Some "Minor".

(** A dashboard report whose [sectionId] is falsy or the id of one of the
    sections. *)
Definition filed_in (sections : list Section) (report : ESGDashboard.ESGReport) : Prop :=
  ESGDashboard.truthy (ESGDashboard.sectionId report) = true →
  ∃ section, section ∈ sections
    ∧ ESGDashboard.sectionId report = Some (Storage.id section).

(** Two reports and two sections for the examples of the dashboard. *)
Definition card_report (id' : string) (classification' : option string)
    (confidenceScore' : option Z) (sectionId' : option string) : ESGDashboard.ESGReport :=
  {| ESGDashboard.id := id'; ESGDashboard.title := "t"; ESGDashboard.date := "d";
     ESGDashboard.sources := 1; ESGDashboard.icon := "i"; ESGDashboard.filePath := None;
     ESGDashboard.classification := classification';
     ESGDashboard.confidenceScore := confidenceScore';
     ESGDashboard.sectionId := sectionId' |}.

Definition four_reports : list ESGDashboard.ESGReport :=
  [ card_report "1" (Some "Minor") (Some 15) None;
    card_report "2" None None None;
    card_report "3" (Some "Major") (Some 85) None;
    card_report "4" (Some "Major") (Some 85) (Some "section_2") ].

Definition two_sections : list Section :=
  [ {| Storage.id := "section_1"; name := "Energy"; Storage.reports := [] |};
    {| Storage.id := "section_2"; name := "Mining"; Storage.reports := ["4"] |} ].

(** The sections [getSections] can read in a browser state. *)
Definition readable (w : Browser) : list Section :=
  if getItem_throws (storage w) then [] else sections_of (storage w).

(** The report [toReport] builds for a PDF, as a function of the analysis
    results and the sections it reads. *)
Definition built (getCategoryIcon formatDate : string → string)
    (results : gmap string AnalysisResult) (sections : list Section)
    (pdf : ESGDashboard.PDFMetadata) : ESGDashboard.ESGReport :=
  {| ESGDashboard.id := ESGDashboard.pdf_id pdf;
     ESGDashboard.title := ESGDashboard.pdf_title pdf;
     ESGDashboard.date := formatDate (ESGDashboard.pdf_uploadDate pdf);
     ESGDashboard.sources := ESGDashboard.pdf_sources pdf;
     ESGDashboard.icon := getCategoryIcon (ESGDashboard.pdf_category pdf);
     ESGDashboard.filePath := Some (ESGDashboard.pdf_filePath pdf);
     ESGDashboard.classification :=
       Storage.classification <$> results !! ESGDashboard.pdf_id pdf;
     ESGDashboard.confidenceScore :=
       Storage.confidenceScore <$> results !! ESGDashboard.pdf_id pdf;
     ESGDashboard.sectionId :=
       Storage.id <$>
         (snd <$> list_find (λ s, ESGDashboard.pdf_id pdf ∈ Storage.reports s) sections) |}.

(** ** Concrete server states *)

(** The disk right after the server has started: an empty database. *)
Definition fresh_disk : Server.Disk :=
  {| Server.pdfs_json := Some (Json {| Server.pdfs := [] |});
     Server.readFileSync_throws := false;
     Server.writeFileSync_throws := false;
     Server.console := [] |}.

Definition report_pdf : Server.File :=
  {| Server.originalname := "report.pdf";
     Server.filename := "1700000000000-report.pdf" |}.

(** An upload of [report_pdf] with an empty title field and no other
    fields. *)
Definition upload_request : Server.UploadRequest :=
  {| Server.file := Some report_pdf;
     Server.body_title := Some "";
     Server.body_category := None;
     Server.body_description := None |}.

(** The metadata [upload] stores for a request with a file. *)
Definition stored_metadata (now iso : string) (req : Server.UploadRequest)
    (file : Server.File) : Server.PdfData :=
  {| Server.id := now;
     Server.fileName := Server.originalname file;
     Server.filePath := "/uploads/" +:+ Server.filename file;
     Server.title := Server.or_string (Server.body_title req)
                       (Server.replace ".pdf" "" (Server.originalname file));
     Server.category := Server.or_string (Server.body_category req) "Uncategorized";
     Server.description := Server.or_string (Server.body_description req) "";
     Server.uploadDate := iso;
     Server.sources := 1 |}.

(** ** Concrete browser states *)

(** A fresh browser with the given texts under the two keys. *)
Definition browser (results : option (item (gmap string AnalysisResult)))
    (sections : option (item (list Section))) : Browser :=
  {| storage := {| esg_analysis_results := results;
                   esg_report_sections := sections;
                   getItem_throws := false;
                   setItem_throws := false;
                   removeItem_throws := false |};
     console := [] |}.

(** The same browser while it refuses some accesses to [localStorage]. *)
Definition refusing (get set remove : bool) (w : Browser) : Browser :=
  {| storage := {| esg_analysis_results := esg_analysis_results (storage w);
                   esg_report_sections := esg_report_sections (storage w);
                   getItem_throws := get;
                   setItem_throws := set;
                   removeItem_throws := remove |};
     console := console w |}.

(** A record written by another path: score 60 stored with the label Minor. *)
Definition legacy_record : AnalysisResult :=
  {| Storage.classification := "Minor"; confidenceScore := 60 |}.

Definition legacy_browser : Browser :=
  browser (Some (Json {[ "report-1" := legacy_record ]})) None.

(** Two sections, the report "report-1" filed in the first. *)
Definition filed_browser : Browser :=
  browser None
    (Some (Json [ {| id := "section_1"; name := "Energy"; reports := ["report-1"] |};
                  {| id := "section_2"; name := "Mining"; reports := [] |} ])).

(** Model replies. *)
Definition four_major : list FlaggedStatement := replicate 4 (flagged (Some "Major")).

Definition reply_without_statements : ParsedResult :=
  {| confidence_score := 90; Gemini.classification := "Major";
     flagged_statements := FlaggedFalsy |}.

Definition reply_four_major : ParsedResult :=
  {| confidence_score := 12; Gemini.classification := "Minor";
     flagged_statements := FlaggedArray four_major |}.

(** * Properties of the score calculator *)

Section ScoreCalculator.

Implicit Types (S : list FlaggedStatement) (e : FlaggedStatement).

Lemma filter_length_tally (r : string) S :
  Z.of_nat (length (filter (λ s, risk_level s = Some r) S)) = tally r S.
Proof.
  induction S as [|s S IH]; [reflexivity|].
  rewrite filter_cons. cbn [tally]. destruct (decide (risk_level s = Some r)).
  - cbn [length]. lia.
  - lia.
Qed.

Lemma majorCount_tally S : majorCount S = tally "Major" S.
Proof. apply filter_length_tally. Qed.

Lemma minorCount_tally S : minorCount S = tally "Minor" S.
Proof. apply filter_length_tally. Qed.

Lemma tally_nonneg (r : string) S : 0 ≤ tally r S.
Proof. induction S as [|s S IH]; cbn [tally]; [lia|]. case_decide; lia. Qed.

Lemma tally_app (r : string) S S' : tally r (S ++ S') = tally r S + tally r S'.
Proof. induction S as [|s S IH]; cbn [tally app]; [lia|]. rewrite IH. lia. Qed.

Lemma calculateGreenwashingScore_computeScore S :
  calculateGreenwashingScore S = computeScore S.
Proof.
  unfold calculateGreenwashingScore, computeScore, BASE_SCORE, MAJOR_WEIGHT, MINOR_WEIGHT.
  rewrite majorCount_tally, minorCount_tally.
  destruct S as [|s S]; cbn [length]; case_decide; try done.
  f_equal. lia.
Qed.

Lemma computeScore_range S : 0 ≤ computeScore S ≤ 100.
Proof.
  unfold computeScore. destruct S as [|s S]; [lia|].
  pose proof (tally_nonneg "Major" (s :: S)).
  pose proof (tally_nonneg "Minor" (s :: S)). lia.
Qed.

Lemma computeScore_nonempty S :
  S ≠ [] → computeScore S = Z.min (10 + 15 * tally "Major" S + 5 * tally "Minor" S) 100.
Proof. destruct S; [done|reflexivity]. Qed.

(** C4: calculateGreenwashingScore is a total function that returns 0 on the
    empty sequence and min(10 + 15*majorCount + 5*minorCount, 100) otherwise,
    where the two counts tally the entries whose risk level is exactly Major
    and exactly Minor (any other or missing risk level adds to neither); the
    result always lies in [0, 100]. *)
Theorem calculateGreenwashingScore_formula S :
  calculateGreenwashingScore S =
    match S with
    | [] => 0
    | _ :: _ => Z.min (10 + 15 * majorCount S + 5 * minorCount S) 100
    end
  ∧ majorCount S = tally "Major" S
  ∧ minorCount S = tally "Minor" S
  ∧ 0 ≤ calculateGreenwashingScore S ≤ 100.
Proof.
  split; [|split; [|split]].
  - rewrite calculateGreenwashingScore_computeScore, majorCount_tally, minorCount_tally.
    reflexivity.
  - apply majorCount_tally.
  - apply minorCount_tally.
  - rewrite calculateGreenwashingScore_computeScore. apply computeScore_range.
Qed.

(** C8: appending one more entry whose risk level is Major, or one whose risk
    level is Minor, never lowers the score. *)
Theorem calculateGreenwashingScore_monotone S e
    (He : risk_level e = Some "Major" ∨ risk_level e = Some "Minor") :
  calculateGreenwashingScore S ≤ calculateGreenwashingScore (S ++ [e]).
Proof.
  rewrite !calculateGreenwashingScore_computeScore.
  pose proof (tally_nonneg "Major" S) as HM.
  pose proof (tally_nonneg "Minor" S) as Hm.
  destruct S as [|s S].
  - cbn. repeat case_decide; lia.
  - assert (s :: S ≠ []) as Hne by done.
    assert ((s :: S) ++ [e] ≠ []) as Hne' by done.
    rewrite (computeScore_nonempty _ Hne), (computeScore_nonempty _ Hne').
    rewrite !tally_app.
    pose proof (tally_nonneg "Major" [e]). pose proof (tally_nonneg "Minor" [e]).
    lia.
Qed.

Lemma calculateGreenwashingScore_monotone_witness :
  calculateGreenwashingScore [flagged (Some "Minor")]
  ≤ calculateGreenwashingScore ([flagged (Some "Minor")] ++ [flagged (Some "Major")]).
Proof.
  apply (calculateGreenwashingScore_monotone [flagged (Some "Minor")] (flagged (Some "Major"))).
  left. reflexivity.
Defined.

(** C10: on a non-empty sequence the score is at least the base score 10,
    whatever the risk levels of its entries, so no input yields a score
    strictly between 0 and 10. *)
Theorem calculateGreenwashingScore_base S (HS : S ≠ []) :
  10 ≤ calculateGreenwashingScore S
  ∧ ¬ (0 < calculateGreenwashingScore S < 10).
Proof.
  rewrite calculateGreenwashingScore_computeScore, (computeScore_nonempty _ HS).
  pose proof (tally_nonneg "Major" S). pose proof (tally_nonneg "Minor" S). lia.
Qed.

Lemma calculateGreenwashingScore_base_witness :
  10 ≤ calculateGreenwashingScore [flagged None]
  ∧ ¬ (0 < calculateGreenwashingScore [flagged None] < 10).
Proof.
  apply (calculateGreenwashingScore_base [flagged None]). discriminate.
Defined.

Lemma calculateGreenwashingScore_gap S :
  calculateGreenwashingScore S = 0 ∨ 10 ≤ calculateGreenwashingScore S.
Proof.
  destruct S as [|s S]; [left; reflexivity|right].
  rewrite calculateGreenwashingScore_computeScore.
  assert (s :: S ≠ []) as Hne by done.
  rewrite (computeScore_nonempty _ Hne).
  pose proof (tally_nonneg "Major" (s :: S)). pose proof (tally_nonneg "Minor" (s :: S)). lia.
Qed.

Example score_two_major_one_minor :
  calculateGreenwashingScore
    [flagged (Some "Major"); flagged (Some "Major"); flagged (Some "Minor")] = 45.
Proof. reflexivity. Qed.

Example score_ten_major :
  calculateGreenwashingScore (replicate 10 (flagged (Some "Major"))) = 100.
Proof. reflexivity. Qed.

Example score_unrecognised_only :
  calculateGreenwashingScore [flagged (Some "major"); flagged None] = 10.
Proof. reflexivity. Qed.

End ScoreCalculator.

(** * Post-processing of the model reply *)

Section AnalysisIntake.

Implicit Types (pdfText : string) (parsedResult : ParsedResult).

(** Four Major statements score 70; the label the function attaches to that
    score is Minor, because its test is [> 70]. *)
Example analyzeESGReport_four_major :
  analyzeESGReport "report text" (GeneratedText (Some reply_four_major))
  = Normal {| confidence_score := 70; Gemini.classification := "Minor";
              flagged_statements := FlaggedArray four_major |}.
Proof. reflexivity. Qed.

(** A reply without [flagged_statements] skips the override. *)
Lemma analyzeESGReport_no_statements pdfText parsedResult :
  pdfText ≠ "" →
  flagged_statements parsedResult = FlaggedFalsy →
  analyzeESGReport pdfText (GeneratedText (Some parsedResult)) = Normal parsedResult.
Proof.
  intros Htext Hf. unfold analyzeESGReport. case_decide; [done|]. by rewrite Hf.
Qed.

(** C2, as stated, fails on two replies.  A reply that parses but has no
    [flagged_statements] comes back with the model's own score 90 and label
    Major, although the score calculator gives 0 for no statements.  A reply
    with four Major statements gets the recomputed score 70, which is above
    55, and the label Minor. *)
Lemma analyzeESGReport_not_threshold_55 :
  (∃ out, analyzeESGReport "report text" (GeneratedText (Some reply_without_statements))
          = Normal out
     ∧ confidence_score out = confidence_score reply_without_statements
     ∧ confidence_score out ≠ calculateGreenwashingScore []
     ∧ Gemini.classification out = "Major")
  ∧ (∃ out, analyzeESGReport "report text" (GeneratedText (Some reply_four_major))
            = Normal out
       ∧ confidence_score out = calculateGreenwashingScore four_major
       ∧ confidence_score out > 55
       ∧ Gemini.classification out ≠ "Major").
Proof.
  split.
  - exists reply_without_statements. split_and!; try reflexivity; done.
  - eexists. split; [reflexivity|]. split_and!; try reflexivity; done.
Qed.

(** C2, amended: when the parsed reply carries an array of flagged
    statements without [null] entries, the returned score is the score
    calculator's output on that array and the returned label is Major or
    Minor and is fixed by the recomputed score alone (Major whenever it
    exceeds 70, Minor whenever it is at most 55; two replies with equal
    recomputed scores get equal labels), so that neither depends on the score
    and label the model supplied.  A reply whose [flagged_statements] is
    falsy is returned as the model gave it; one whose [flagged_statements] is
    no array but has length 0 gets the score 0 and the label Minor; an array
    with a [null] entry and every other truthy value are rejected with the
    malformed-output error. *)
Theorem analyzeESGReport_recomputes pdfText parsedResult (Htext : pdfText ≠ "") :
  match flagged_statements parsedResult with
  | FlaggedArray l =>
      ∃ out, analyzeESGReport pdfText (GeneratedText (Some parsedResult)) = Normal out
        ∧ confidence_score out = calculateGreenwashingScore l
        ∧ flagged_statements out = FlaggedArray l
        ∧ (Gemini.classification out = "Major" ∨ Gemini.classification out = "Minor")
        ∧ (confidence_score out > 70 → Gemini.classification out = "Major")
        ∧ (confidence_score out ≤ 55 → Gemini.classification out = "Minor")
        ∧ (∀ pdfText' parsedResult' l' out',
             flagged_statements parsedResult' = FlaggedArray l' →
             analyzeESGReport pdfText' (GeneratedText (Some parsedResult')) = Normal out' →
             confidence_score out' = confidence_score out →
             Gemini.classification out' = Gemini.classification out)
  | FlaggedLengthZero =>
      analyzeESGReport pdfText (GeneratedText (Some parsedResult))
      = Normal {| confidence_score := 0; Gemini.classification := "Minor";
                  flagged_statements := FlaggedLengthZero |}
  | FlaggedFalsy =>
      analyzeESGReport pdfText (GeneratedText (Some parsedResult)) = Normal parsedResult
  | FlaggedArrayWithNull | FlaggedOther =>
      analyzeESGReport pdfText (GeneratedText (Some parsedResult))
      = Throw (Error "Failed to get a valid JSON response from the AI. The output was malformed.")
  end.
Proof.
  unfold analyzeESGReport. case_decide; [done|].
  destruct (flagged_statements parsedResult) as [|l| | |] eqn:Hf; try reflexivity.
  eexists. split; [reflexivity|]. cbn.
  split_and!; try reflexivity.
  - case_decide; auto.
  - intros Hgt. case_decide; [reflexivity|lia].
  - intros Hle. case_decide; [lia|reflexivity].
  - intros pdfText' p' l' out' Hp' Hout' Hscore.
    destruct (decide (pdfText' = "")); [done|]. rewrite Hp' in Hout'. simplify_eq/=.
    rewrite Hscore. reflexivity.
Qed.

Lemma analyzeESGReport_recomputes_witness :
  ∃ out, analyzeESGReport "report text" (GeneratedText (Some reply_four_major)) = Normal out
    ∧ confidence_score out = calculateGreenwashingScore four_major
    ∧ flagged_statements out = FlaggedArray four_major
    ∧ (Gemini.classification out = "Major" ∨ Gemini.classification out = "Minor")
    ∧ (confidence_score out > 70 → Gemini.classification out = "Major")
    ∧ (confidence_score out ≤ 55 → Gemini.classification out = "Minor")
    ∧ (∀ pdfText' parsedResult' l' out',
         flagged_statements parsedResult' = FlaggedArray l' →
         analyzeESGReport pdfText' (GeneratedText (Some parsedResult')) = Normal out' →
         confidence_score out' = confidence_score out →
         Gemini.classification out' = Gemini.classification out).
Proof.
  apply (analyzeESGReport_recomputes "report text" reply_four_major). discriminate.
Defined.

(** A reply whose [flagged_statements] is an object with [length: 0], and one
    whose array holds a [null]. *)
Example analyzeESGReport_other_shapes :
  analyzeESGReport "report text"
    (GeneratedText (Some {| confidence_score := 90; Gemini.classification := "Major";
                            flagged_statements := FlaggedLengthZero |}))
  = Normal {| confidence_score := 0; Gemini.classification := "Minor";
              flagged_statements := FlaggedLengthZero |}
  ∧ analyzeESGReport "report text"
      (GeneratedText (Some {| confidence_score := 90; Gemini.classification := "Major";
                              flagged_statements := FlaggedArrayWithNull |}))
    = Throw (Error "Failed to get a valid JSON response from the AI. The output was malformed.").
Proof. split; reflexivity. Qed.

End AnalysisIntake.

(** * The classification reconciler (storage.ts) *)

Section Reconciler.

Implicit Types (w : Browser) (fileId reportId : string) (result : AnalysisResult).

(** Unfolds a storage function down to the browser state it works on. *)
Ltac js_unfold :=
  unfold saveAnalysisResult, getAnalysisResult, getAllAnalysisResults,
    clearAllAnalysisResults, resetAndUpdateAllScores, deleteReport,
    removeReportFromAllSections, getSections,
    try_catch, throw, console_error, console_log,
    getItem, setItem, removeItem, JSON_parse, JSON_stringify,
    mbind, mret, JS_bind, JS_ret; cbn.

(** ** Reads *)

Lemma getAnalysisResult_normal fileId w :
  ∃ r, fst (getAnalysisResult fileId w) = Normal r.
Proof.
  js_unfold. destruct (getItem_throws (storage w)); cbn; [eauto|].
  destruct (esg_analysis_results (storage w)) as [[| |results]|]; cbn; eauto.
Qed.

Lemma getAllAnalysisResults_normal w :
  ∃ results, fst (getAllAnalysisResults w) = Normal results.
Proof.
  js_unfold. destruct (getItem_throws (storage w)); cbn; [eauto|].
  destruct (esg_analysis_results (storage w)) as [[| |results]|]; cbn; eauto.
Qed.

(** [getAnalysisResult] hands out the stored record as it is. *)
Lemma getAnalysisResult_stored fileId w results :
  getItem_throws (storage w) = false →
  records_of (storage w) = Some results →
  getAnalysisResult fileId w = (Normal (get_property results fileId), w).
Proof.
  intros Hget Hrec. js_unfold. rewrite Hget. cbn.
  unfold records_of in Hrec.
  destruct (esg_analysis_results (storage w)) as [[| |stored]|]; cbn;
    simplify_eq; reflexivity.
Qed.

(** [getAllAnalysisResults] relabels every record from its score. *)
Lemma getAllAnalysisResults_consistent w results fileId result :
  fst (getAllAnalysisResults w) = Normal results →
  results !! fileId = Some result →
  consistent result.
Proof.
  js_unfold. destruct (getItem_throws (storage w)); cbn.
  { intros; simplify_map_eq. }
  destruct (esg_analysis_results (storage w)) as [[| |stored]|]; cbn;
    intros; simplify_map_eq.
  destruct (stored !! fileId) as [r|]; simplify_eq/=.
  unfold consistent. case_decide; cbn; split; try done; lia.
Qed.

Lemma getAllAnalysisResults_scores w results fileId result :
  fst (getAllAnalysisResults w) = Normal results →
  results !! fileId = Some result →
  ∃ stored r, records_of (storage w) = Some stored ∧ stored !! fileId = Some r
    ∧ confidenceScore result = confidenceScore r.
Proof.
  js_unfold. unfold records_of. destruct (getItem_throws (storage w)); cbn.
  { intros; simplify_map_eq. }
  destruct (esg_analysis_results (storage w)) as [[| |stored]|]; cbn;
    intros; simplify_map_eq.
  destruct (stored !! fileId) as [r|] eqn:Hr; simplify_eq/=.
  exists stored, r. split_and!; try done. by case_decide.
Qed.

(** C1, at the record of scenario 6 of the specification (score 60 stored
    with the label Minor): [getAllAnalysisResults] returns it labelled Major,
    but [getAnalysisResult] returns it unchanged, labelled Minor although
    60 > 55. *)
Theorem getAnalysisResult_keeps_stored_label :
  fst (getAnalysisResult "report-1" legacy_browser)
    = Normal (Some {| Storage.classification := "Minor"; confidenceScore := 60 |})
  ∧ ¬ consistent {| Storage.classification := "Minor"; confidenceScore := 60 |}
  ∧ (∃ results, fst (getAllAnalysisResults legacy_browser) = Normal results
       ∧ results !! "report-1"
         = Some {| Storage.classification := "Major"; confidenceScore := 60 |}).
Proof.
  split; [reflexivity|]. split.
  - unfold consistent. cbn. intros [_ H]. by specialize (H eq_refl).
  - eexists. split; [reflexivity|]. reflexivity.
Qed.

(** C6: when [localStorage] cannot be read ([getItem] throws) or the text
    under 'esg_analysis_results' does not parse, [getAnalysisResult] returns
    [null] and [getAllAnalysisResults] returns the empty object; neither
    throws. *)
Theorem reads_degrade_to_no_records fileId w
    (Hbad : getItem_throws (storage w) = true
            ∨ esg_analysis_results (storage w) = Some Malformed) :
  fst (getAnalysisResult fileId w) = Normal None
  ∧ fst (getAllAnalysisResults w) = Normal ∅.
Proof.
  js_unfold. destruct (getItem_throws (storage w)) eqn:Hget; cbn; [done|].
  destruct Hbad as [?|Hbad]; [done|]. rewrite Hbad. done.
Qed.

Lemma reads_degrade_to_no_records_witness :
  fst (getAnalysisResult "report-1" (browser (Some Malformed) None)) = Normal None
  ∧ fst (getAllAnalysisResults (browser (Some Malformed) None)) = Normal ∅.
Proof.
  apply (reads_degrade_to_no_records "report-1" (browser (Some Malformed) None)).
  right. reflexivity.
Defined.

Example reads_degrade_when_unreadable :
  fst (getAnalysisResult "report-1" (refusing true false false legacy_browser)) = Normal None
  ∧ fst (getAllAnalysisResults (refusing true false false legacy_browser)) = Normal ∅.
Proof. split; reflexivity. Qed.

Lemma getAnalysisResult_storage fileId w :
  storage (snd (getAnalysisResult fileId w)) = storage w.
Proof.
  js_unfold. destruct (getItem_throws (storage w)); cbn; [done|].
  destruct (esg_analysis_results (storage w)) as [[| |results]|]; done.
Qed.

Lemma getAllAnalysisResults_storage w :
  storage (snd (getAllAnalysisResults w)) = storage w.
Proof.
  js_unfold. destruct (getItem_throws (storage w)); cbn; [done|].
  destruct (esg_analysis_results (storage w)) as [[| |results]|]; done.
Qed.

Lemma run_read_storage op w : storage (run_read op w) = storage w.
Proof.
  destruct op; [apply getAnalysisResult_storage|apply getAllAnalysisResults_storage].
Qed.

Lemma run_reads_storage (ops : list read_op) w :
  storage (run_reads ops w) = storage w.
Proof.
  unfold run_reads. revert w. induction ops as [|op ops IH]; intros w; [done|].
  cbn [foldl]. rewrite IH. apply run_read_storage.
Qed.

(** C9: no run of [getAnalysisResult] and [getAllAnalysisResults] calls
    changes [localStorage]; the relabelling done by [getAllAnalysisResults]
    stays in the object it returns, so the text under 'esg_analysis_results',
    mismatched labels included, is the same after the reads as before. *)
Theorem reads_leave_storage (ops : list read_op) w :
  storage (run_reads ops w) = storage w
  ∧ esg_analysis_results (storage (run_reads ops w)) = esg_analysis_results (storage w).
Proof. split; [|f_equal]; apply run_reads_storage. Qed.

Example legacy_label_survives_reads :
  esg_analysis_results
    (storage (run_reads [GetAll; Get "report-1"; GetAll] legacy_browser))
  = Some (Json {[ "report-1" := legacy_record ]}).
Proof. by rewrite run_reads_storage. Qed.

(** ** Writes *)

Lemma set_property_insert (results : gmap string AnalysisResult) (key : string) result :
  key ≠ "__proto__" → set_property results key result = <[key := result]> results.
Proof. intros Hkey. unfold set_property. case_decide as H; [by destruct H|done]. Qed.

(** C3, as stated, fails for the report id '__proto__': on the parsed object
    the assignment [existingResults[fileId] = result] replaces the prototype
    instead of adding a property, so [saveAnalysisResult] returns normally but
    the text written back holds no record for that id, and
    [getAnalysisResult] of it finds [Object.prototype], not the saved
    result. *)
Lemma saveAnalysisResult_proto_key :
  let w' := snd (saveAnalysisResult "__proto__"
                   {| Storage.classification := "Minor"; confidenceScore := 85 |}
                   legacy_browser) in
  fst (saveAnalysisResult "__proto__"
         {| Storage.classification := "Minor"; confidenceScore := 85 |} legacy_browser)
    = Normal ()
  ∧ esg_analysis_results (storage w') = Some (Json {[ "report-1" := legacy_record ]})
  ∧ ({[ "report-1" := legacy_record ]} : gmap string AnalysisResult) !! "__proto__" = None
  ∧ fst (getAnalysisResult "__proto__" w') = Normal (Some (Inherited "__proto__")).
Proof. split_and!; reflexivity. Qed.

(** C3, amended: for every report id other than '__proto__', when
    [localStorage] can be read and written and the text under
    'esg_analysis_results' parses to [old] (or is missing, which reads as the
    empty object), [saveAnalysisResult] on a result with score [score]
    returns normally and leaves under that key [old] with the entry of
    [fileId] replaced by the record of score [score] labelled Major when
    [score > 55] and Minor otherwise, whatever label the caller supplied;
    the sections are untouched. *)
Theorem saveAnalysisResult_upsert fileId (score : Z) (supplied : string) w
    (old : gmap string AnalysisResult)
    (Hkey : fileId ≠ "__proto__")
    (Hget : getItem_throws (storage w) = false)
    (Hset : setItem_throws (storage w) = false)
    (Hold : records_of (storage w) = Some old) :
  ∃ w', saveAnalysisResult fileId
          {| Storage.classification := supplied; confidenceScore := score |} w
        = (Normal (), w')
    ∧ esg_analysis_results (storage w')
      = Some (Json (<[fileId :=
                       {| Storage.classification :=
                            if decide (score > 55) then "Major" else "Minor";
                          confidenceScore := score |}]> old))
    ∧ esg_report_sections (storage w') = esg_report_sections (storage w).
Proof.
  js_unfold. rewrite Hget. cbn. unfold records_of in Hold.
  destruct (esg_analysis_results (storage w)) as [[| |stored]|]; cbn;
    simplify_eq; rewrite Hset; cbn;
    (eexists; split; [reflexivity|]; cbn; split; [|reflexivity];
     rewrite set_property_insert by done; case_decide; reflexivity).
Qed.

Lemma saveAnalysisResult_upsert_witness :
  ∃ w', saveAnalysisResult "report-1"
          {| Storage.classification := "Minor"; confidenceScore := 85 |} legacy_browser
        = (Normal (), w')
    ∧ esg_analysis_results (storage w')
      = Some (Json (<["report-1" :=
                       {| Storage.classification :=
                            if decide (85 > 55) then "Major" else "Minor";
                          confidenceScore := 85 |}]> {[ "report-1" := legacy_record ]}))
    ∧ esg_report_sections (storage w') = esg_report_sections (storage legacy_browser).
Proof.
  apply (saveAnalysisResult_upsert "report-1" 85 "Minor" legacy_browser
           {[ "report-1" := legacy_record ]}); [discriminate|reflexivity..].
Defined.

Lemma saveAnalysisResult_stored_consistent fileId result w w' results r :
  saveAnalysisResult fileId result w = (Normal (), w') →
  esg_analysis_results (storage w') = Some (Json results) →
  results !! fileId = Some r →
  consistent r ∧ confidenceScore r = confidenceScore result.
Proof.
  js_unfold. unfold set_property.
  destruct (getItem_throws (storage w)); cbn; [done|].
  destruct (esg_analysis_results (storage w)) as [[| |stored]|]; cbn; try done;
    destruct (setItem_throws (storage w)); cbn; try done;
    (case_decide as Hproto; [destruct Hproto as [-> Hnone]|]);
    intros; simplify_map_eq; unfold consistent;
    (case_decide; cbn; (split; [split|]); try done; lia).
Qed.


Lemma getSections_normal w :
  ∃ sections, fst (getSections w) = Normal sections
    ∧ storage (snd (getSections w)) = storage w.
Proof.
  js_unfold. destruct (getItem_throws (storage w)); cbn; [eauto|].
  destruct (esg_report_sections (storage w)) as [[| |sections]|]; cbn; eauto.
Qed.

Lemma removeReportFromAllSections_write_failure reportId w :
  setItem_throws (storage w) = true →
  fst (removeReportFromAllSections reportId w)
    = Throw (Error "Failed to remove report from all sections")
  ∧ storage (snd (removeReportFromAllSections reportId w)) = storage w.
Proof.
  intros Hset. js_unfold. destruct (getItem_throws (storage w)); cbn.
  { rewrite Hset. done. }
  destruct (esg_report_sections (storage w)) as [[| |sections]|]; cbn;
    rewrite Hset; done.
Qed.


(** [clearAllAnalysisResults] ends normally in every browser state. *)
Lemma clearAllAnalysisResults_normal w :
  fst (clearAllAnalysisResults w) = Normal ().
Proof. js_unfold. destruct (removeItem_throws (storage w)); done. Qed.


Lemma clearAllAnalysisResults_success w :
  removeItem_throws (storage w) = false →
  fst (clearAllAnalysisResults w) = Normal ()
  ∧ esg_analysis_results (storage (snd (clearAllAnalysisResults w))) = None.
Proof. intros Hrem. js_unfold. by rewrite Hrem. Qed.




End Reconciler.

(** * Section membership (storage.ts) *)

Section Membership.

Implicit Types (w : Browser) (reportId sectionId : string) (sections : list Section).

Ltac js_unfold :=
  unfold addReportToSection, addToSection, createSection,
    removeReportFromAllSections, getSections,
    try_catch, throw, console_error, console_log,
    getItem, setItem, removeItem, JSON_parse, JSON_stringify,
    mbind, mret, JS_bind, JS_ret; cbn.

Lemma sections_holding_without reportId sections :
  sections_holding reportId (without reportId sections) = [].
Proof.
  unfold sections_holding, without.
  induction sections as [|s sections IH]; [done|].
  rewrite fmap_cons, filter_cons_False; [done|].
  cbn. rewrite list_elem_of_filter. tauto.
Qed.

Lemma removeReportFromAllSections_writes reportId w sections :
  getItem_throws (storage w) = false →
  setItem_throws (storage w) = false →
  esg_report_sections (storage w) = Some (Json sections) →
  fst (removeReportFromAllSections reportId w) = Normal ()
  ∧ esg_report_sections (storage (snd (removeReportFromAllSections reportId w)))
    = Some (Json (without reportId sections)).
Proof.
  intros Hget Hset Hsec. js_unfold. rewrite Hget. cbn. rewrite Hsec. cbn.
  rewrite Hset. cbn. case_bool_decide; done.
Qed.

(** What [addReportToSection] leaves in the store: when the target section
    of the copy parsed first already lists the report, the store keeps what
    [removeReportFromAllSections] wrote; otherwise the store is overwritten
    with that first copy, the report pushed onto its target section. *)
Lemma addReportToSection_writes reportId sectionId w sections i section :
  getItem_throws (storage w) = false →
  setItem_throws (storage w) = false →
  esg_report_sections (storage w) = Some (Json sections) →
  list_find (λ s, id s = sectionId) sections = Some (i, section) →
  fst (addReportToSection reportId sectionId w) = Normal ()
  ∧ esg_report_sections (storage (snd (addReportToSection reportId sectionId w)))
    = Some (Json (if decide (reportId ∈ reports section)
                  then without reportId sections
                  else <[i := set_reports (reports section ++ [reportId]) section]> sections)).
Proof.
  intros Hget Hset Hsec Hfind. js_unfold. rewrite Hget. cbn. rewrite Hsec. cbn.
  rewrite Hfind. cbn. rewrite Hget. cbn. rewrite Hsec. cbn. rewrite Hset. cbn.
  case_bool_decide; cbn; case_decide; cbn; rewrite ?Hset; done.
Qed.

Lemma without_unfiled reportId sections :
  sections_holding reportId sections = [] → without reportId sections = sections.
Proof.
  unfold sections_holding, without.
  induction sections as [|s sections IH]; [done|].
  rewrite filter_cons. case_decide as Hin; [done|]. intros Hnone.
  rewrite fmap_cons, (IH Hnone). f_equal.
  destruct s as [i n rs]. unfold set_reports. cbn in *. f_equal.
  clear -Hin. induction rs as [|r rs IH]; [done|].
  rewrite filter_cons. rewrite not_elem_of_cons in Hin. destruct Hin as [Hne Hin].
  case_decide; [|done]. by rewrite IH.
Qed.

(** For a report that is in no section, [addReportToSection] does leave the
    store as the removal followed by the append would. *)
Lemma addReportToSection_unfiled reportId sectionId w sections :
  getItem_throws (storage w) = false →
  setItem_throws (storage w) = false →
  esg_report_sections (storage w) = Some (Json sections) →
  sections_holding reportId sections = [] →
  storage (snd (addReportToSection reportId sectionId w))
  = storage (snd (addToSection reportId sectionId w)).
Proof.
  intros Hget Hset Hsec Hnone.
  pose proof (without_unfiled _ _ Hnone) as Hw. unfold without in Hw.
  destruct w as [[res sec g st rm] out]. cbn in Hget, Hset, Hsec. subst.
  js_unfold. rewrite !Hw.
  destruct (list_find (λ s, id s = sectionId) sections) as [[i section]|] eqn:Hfind; cbn.
  - case_bool_decide; cbn; rewrite ?Hw, ?Hfind; cbn; case_decide; done.
  - case_bool_decide; cbn; rewrite ?Hw, ?Hfind; done.
Qed.

(** The store of [filed_browser] is what two [createSection] calls and one
    [addReportToSection] call leave in an empty store. *)
Example filed_browser_reachable :
  storage (snd ((createSection "1" "Energy";;
                 createSection "2" "Mining";;
                 addReportToSection "report-1" "section_1") (browser None None)))
  = storage (browser None
      (Some (Json [ {| id := "section_1"; name := "Energy"; reports := ["report-1"] |};
                    {| id := "section_2"; name := "Mining"; reports := [] |} ]))).
Proof. reflexivity. Qed.

(** C5, at a report filed in the first of two sections and then added to the
    second: [addReportToSection] returns normally and leaves the report in
    both sections, because it writes back the array it parsed before
    [removeReportFromAllSections] ran; [removeReportFromAllSections] followed
    by the append, as the specification words it, leaves the report in the
    second section only. *)
Theorem addReportToSection_not_a_move :
  (∃ w', addReportToSection "report-1" "section_2" filed_browser = (Normal (), w')
     ∧ esg_report_sections (storage w')
       = Some (Json [ {| id := "section_1"; name := "Energy"; reports := ["report-1"] |};
                      {| id := "section_2"; name := "Mining"; reports := ["report-1"] |} ]))
  ∧ id <$> sections_holding "report-1"
             [ {| id := "section_1"; name := "Energy"; reports := ["report-1"] |};
               {| id := "section_2"; name := "Mining"; reports := ["report-1"] |} ]
    = ["section_1"; "section_2"]
  ∧ (∃ w', addToSection "report-1" "section_2" filed_browser = (Normal (), w')
       ∧ esg_report_sections (storage w')
         = Some (Json [ {| id := "section_1"; name := "Energy"; reports := [] |};
                        {| id := "section_2"; name := "Mining"; reports := ["report-1"] |} ])).
Proof.
  split_and!.
  - eexists. split; reflexivity.
  - reflexivity.
  - eexists. split; reflexivity.
Qed.

(** Adding a report to the section it is already in takes it out of every
    section: the stale copy still lists it, so nothing is pushed after the
    removal. *)
Example addReportToSection_same_section :
  esg_report_sections
    (storage (snd (addReportToSection "report-1" "section_1" filed_browser)))
  = Some (Json [ {| id := "section_1"; name := "Energy"; reports := [] |};
                 {| id := "section_2"; name := "Mining"; reports := [] |} ]).
Proof. reflexivity. Qed.

End Membership.

(** * Further properties of the score calculator *)

Section ScoreFacts.

Implicit Types (S : list FlaggedStatement).

Lemma tally_Permutation (r : string) S S' : S ≡ₚ S' → tally r S = tally r S'.
Proof.
  induction 1 as [|s S S' _ IH|s s' S|S S' S'' _ IH1 _ IH2]; cbn [tally].
  - reflexivity.
  - by rewrite IH.
  - lia.
  - by rewrite IH1.
Qed.

(** X1: The score does not depend on the order of the flagged statements. *)
Theorem calculateGreenwashingScore_Permutation S S' (HP : S ≡ₚ S') :
  calculateGreenwashingScore S = calculateGreenwashingScore S'.
Proof.
  rewrite !calculateGreenwashingScore_computeScore. unfold computeScore.
  rewrite (tally_Permutation "Major" _ _ HP), (tally_Permutation "Minor" _ _ HP).
  destruct S as [|s S], S' as [|s' S']; try reflexivity.
  - by apply Permutation_nil_cons in HP.
  - symmetry in HP. by apply Permutation_nil_cons in HP.
Qed.

Lemma calculateGreenwashingScore_Permutation_witness :
  calculateGreenwashingScore [flagged (Some "Major"); flagged (Some "Minor"); flagged None]
  = calculateGreenwashingScore [flagged None; flagged (Some "Major"); flagged (Some "Minor")].
Proof.
  apply (calculateGreenwashingScore_Permutation
           [flagged (Some "Major"); flagged (Some "Minor"); flagged None]
           [flagged None; flagged (Some "Major"); flagged (Some "Minor")]).
  symmetry.
  apply (Permutation_cons_append [flagged (Some "Major"); flagged (Some "Minor")] (flagged None)).
Defined.

(** X2: Where the two thresholds of the code fall in terms of the counts: the
    score exceeds 55 (the threshold of storage.ts and of the cards) exactly
    when 3*majorCount + minorCount is at least 10, and exceeds 70 (the
    threshold of gemini.ts and of the popup) exactly when it is at least
    13. *)
Theorem calculateGreenwashingScore_thresholds S :
  (calculateGreenwashingScore S > 55 ↔ 10 ≤ 3 * majorCount S + minorCount S)
  ∧ (calculateGreenwashingScore S > 70 ↔ 13 ≤ 3 * majorCount S + minorCount S).
Proof.
  rewrite calculateGreenwashingScore_computeScore, majorCount_tally, minorCount_tally.
  pose proof (tally_nonneg "Major" S). pose proof (tally_nonneg "Minor" S).
  destruct S as [|s S].
  - cbn. lia.
  - unfold computeScore. lia.
Qed.

(** X3: Every score is a multiple of 5, and it is the cap 100 exactly when
    3*majorCount + minorCount is at least 18. *)
Theorem calculateGreenwashingScore_steps S :
  (calculateGreenwashingScore S `mod` 5 = 0)
  ∧ (calculateGreenwashingScore S = 100 ↔ 18 ≤ 3 * majorCount S + minorCount S).
Proof.
  rewrite calculateGreenwashingScore_computeScore, majorCount_tally, minorCount_tally.
  pose proof (tally_nonneg "Major" S). pose proof (tally_nonneg "Minor" S).
  destruct S as [|s S].
  - cbn. split; [reflexivity|lia].
  - unfold computeScore. split; [|lia].
    destruct (Z.min_spec (10 + 15 * tally "Major" (s :: S) + 5 * tally "Minor" (s :: S)) 100)
      as [[_ ->]|[_ ->]]; [|reflexivity].
    replace (10 + 15 * tally "Major" (s :: S) + 5 * tally "Minor" (s :: S))
      with ((2 + 3 * tally "Major" (s :: S) + tally "Minor" (s :: S)) * 5) by lia.
    apply Z_mod_mult.
Qed.

End ScoreFacts.

(** * Further properties of storage.ts *)

Section StorageFacts.

Implicit Types (w : Browser) (fileId reportId sectionId : string)
  (result : AnalysisResult) (sections : list Section).

Ltac js_unfold :=
  unfold saveAnalysisResult, getAnalysisResult, getAllAnalysisResults,
    clearAllAnalysisResults, resetAndUpdateAllScores, deleteReport,
    addReportToSection, createSection, getSectionById, getSectionForReport,
    updateSectionName, deleteSection, removeReportFromSection,
    removeReportFromAllSections, getSections,
    try_catch, throw, console_error, console_log,
    getItem, setItem, removeItem, JSON_parse, JSON_stringify,
    mbind, mret, JS_bind, JS_ret; cbn.

(** Case analysis on the three access flags and the two texts of a browser. *)
Ltac by_cases w :=
  destruct w as [[[[| |?]|] [[| |?]|] [] [] []] ?]; cbn.

(** [getSections] returns what [sections_of] describes, or the empty array
    when [getItem] throws; it never throws and never writes. *)
Lemma getSections_reads w :
  fst (getSections w)
    = Normal (if getItem_throws (storage w) then [] else sections_of (storage w))
  ∧ storage (snd (getSections w)) = storage w.
Proof. js_unfold. unfold sections_of. by_cases w; done. Qed.

Lemma section_reads sectionId reportId w :
  (∃ sections, fst (getSections w) = Normal sections
     ∧ fst (getSectionById sectionId w)
       = Normal (snd <$> list_find (λ s, id s = sectionId) sections)
     ∧ fst (getSectionForReport reportId w)
       = Normal (snd <$> list_find (λ s, reportId ∈ reports s) sections))
  ∧ storage (snd (getSections w)) = storage w
  ∧ storage (snd (getSectionById sectionId w)) = storage w
  ∧ storage (snd (getSectionForReport reportId w)) = storage w.
Proof.
  split.
  - exists (if getItem_throws (storage w) then [] else sections_of (storage w)).
    js_unfold. unfold sections_of. by_cases w; done.
  - js_unfold. by_cases w; done.
Qed.

(** X4: The three section reads of storage.ts end normally in every browser
    state, leave [localStorage] as it was, and answer from the sections that
    [getSections] returns. *)
Theorem section_reads_total sectionId reportId w :
  (∃ sections, fst (getSections w) = Normal sections
     ∧ fst (getSectionById sectionId w)
       = Normal (snd <$> list_find (λ s, id s = sectionId) sections)
     ∧ fst (getSectionForReport reportId w)
       = Normal (snd <$> list_find (λ s, reportId ∈ reports s) sections))
  ∧ storage (snd (getSections w)) = storage w
  ∧ storage (snd (getSectionById sectionId w)) = storage w
  ∧ storage (snd (getSectionForReport reportId w)) = storage w.
Proof.
  split.
  - exists (if getItem_throws (storage w) then [] else sections_of (storage w)).
    destruct (getSections_reads w) as [Hl _]. split; [done|].
    js_unfold. unfold sections_of. by_cases w; done.
  - js_unfold. by_cases w; done.
Qed.

(** X5: Functions that only write analysis results leave the sections alone, and
    the section functions leave the analysis results alone, in every browser
    state and whether they end normally or throw. *)
Theorem storage_frames fileId reportId sectionId (now name : string) result w :
  (esg_report_sections (storage (snd (saveAnalysisResult fileId result w)))
     = esg_report_sections (storage w)
   ∧ esg_report_sections (storage (snd (clearAllAnalysisResults w)))
     = esg_report_sections (storage w)
   ∧ esg_report_sections (storage (snd (resetAndUpdateAllScores w)))
     = esg_report_sections (storage w))
  ∧ (esg_analysis_results (storage (snd (createSection now name w)))
       = esg_analysis_results (storage w)
     ∧ esg_analysis_results (storage (snd (updateSectionName sectionId name w)))
       = esg_analysis_results (storage w)
     ∧ esg_analysis_results (storage (snd (deleteSection sectionId w)))
       = esg_analysis_results (storage w)
     ∧ esg_analysis_results (storage (snd (addReportToSection reportId sectionId w)))
       = esg_analysis_results (storage w)
     ∧ esg_analysis_results (storage (snd (removeReportFromSection reportId sectionId w)))
       = esg_analysis_results (storage w)
     ∧ esg_analysis_results (storage (snd (removeReportFromAllSections reportId w)))
       = esg_analysis_results (storage w)).
Proof.
  split.
  - js_unfold. by_cases w; done.
  - js_unfold. by_cases w; split_and!; try done;
      repeat (case_match; simplify_eq/=; try done).
Qed.

Lemma relabelled_if result :
  (if decide (confidenceScore result > 55)
   then set_classification "Major" result
   else set_classification "Minor" result) = relabelled result.
Proof. unfold relabelled, set_classification. by case_decide. Qed.

(** The browser a successful [saveAnalysisResult] leaves. *)
Lemma saveAnalysisResult_effect fileId result w (old : gmap string AnalysisResult) :
  getItem_throws (storage w) = false →
  setItem_throws (storage w) = false →
  records_of (storage w) = Some old →
  saveAnalysisResult fileId result w
  = (Normal (),
     {| storage := set_slot ANALYSIS_RESULTS_KEY
                     (Some (Json (set_property old fileId (relabelled result)))) (storage w);
        console := console w |}).
Proof.
  intros Hget Hset Hold. unfold records_of in Hold.
  unfold saveAnalysisResult. rewrite relabelled_if.
  unfold try_catch, mbind, JS_bind, getItem, setItem, JSON_parse, JSON_stringify,
    mret, JS_ret, throw.
  rewrite Hget. cbn [slot or_text].
  destruct (esg_analysis_results (storage w)) as [[| |stored]|];
    simplify_eq; cbn [or_text]; rewrite Hset; reflexivity.
Qed.

Lemma getAllAnalysisResults_relabels w (results : gmap string AnalysisResult) :
  getItem_throws (storage w) = false →
  records_of (storage w) = Some results →
  fst (getAllAnalysisResults w) = Normal (relabelled <$> results).
Proof.
  intros Hget Hrec. unfold records_of in Hrec.
  unfold getAllAnalysisResults, try_catch, mbind, JS_bind, getItem, JSON_parse,
    mret, JS_ret, throw.
  rewrite Hget. cbn [slot].
  destruct (esg_analysis_results (storage w)) as [[| |stored]|];
    simplify_eq; cbn [or_text fst]; f_equal; apply map_fmap_ext; intros;
    apply relabelled_if.
Qed.

Lemma get_property_own (results : gmap string AnalysisResult) (key : string) result :
  results !! key = Some result → get_property results key = Some (Own result).
Proof. intros Hr. unfold get_property. by rewrite Hr. Qed.

Lemma get_property_missing (results : gmap string AnalysisResult) (key : string) :
  results !! key = None →
  get_property results key
  = if decide (key ∈ Object_prototype) then Some (Inherited key) else None.
Proof. intros Hr. unfold get_property. by rewrite Hr. Qed.

(** X6: After a successful [saveAnalysisResult] for a file id other than
    '__proto__', [getAnalysisResult] of the same file returns the saved score
    with the label fixed by the threshold 55, every other file reads as it
    did before, and [getAllAnalysisResults] returns the old records
    relabelled, with the saved one in place. *)
Theorem saveAnalysisResult_then_get fileId result w (old : gmap string AnalysisResult)
    (Hkey : fileId ≠ "__proto__")
    (Hget : getItem_throws (storage w) = false)
    (Hset : setItem_throws (storage w) = false)
    (Hold : records_of (storage w) = Some old) :
  fst (saveAnalysisResult fileId result w) = Normal ()
  ∧ fst (getAnalysisResult fileId (snd (saveAnalysisResult fileId result w)))
    = Normal (Some (relabelled result))
  ∧ (∀ other, other ≠ fileId →
       fst (getAnalysisResult other (snd (saveAnalysisResult fileId result w)))
       = fst (getAnalysisResult other w))
  ∧ fst (getAllAnalysisResults (snd (saveAnalysisResult fileId result w)))
    = Normal (<[fileId := relabelled result]> (relabelled <$> old)).
Proof.
  rewrite (saveAnalysisResult_effect _ _ _ _ Hget Hset Hold). cbn [fst snd].
  rewrite set_property_insert by done.
  set (w' := {| storage := _; console := _ |}).
  assert (getItem_throws (storage w') = false) as Hget' by done.
  assert (records_of (storage w') = Some (<[fileId := relabelled result]> old)) as Hrec'
    by done.
  split_and!.
  - done.
  - rewrite (getAnalysisResult_stored _ _ _ Hget' Hrec'). cbn [fst].
    erewrite get_property_own; [done|apply lookup_insert_eq].
  - intros other Hne. rewrite (getAnalysisResult_stored _ _ _ Hget' Hrec'),
      (getAnalysisResult_stored _ _ _ Hget Hold). cbn [fst].
    unfold get_property. by rewrite lookup_insert_ne.
  - rewrite (getAllAnalysisResults_relabels _ _ Hget' Hrec'). by rewrite fmap_insert.
Qed.

Lemma saveAnalysisResult_then_get_witness :
  fst (saveAnalysisResult "report-2" legacy_record legacy_browser) = Normal ()
  ∧ fst (getAnalysisResult "report-2"
           (snd (saveAnalysisResult "report-2" legacy_record legacy_browser)))
    = Normal (Some (relabelled legacy_record))
  ∧ (∀ other, other ≠ "report-2" →
       fst (getAnalysisResult other
              (snd (saveAnalysisResult "report-2" legacy_record legacy_browser)))
       = fst (getAnalysisResult other legacy_browser))
  ∧ fst (getAllAnalysisResults
           (snd (saveAnalysisResult "report-2" legacy_record legacy_browser)))
    = Normal (<["report-2" := relabelled legacy_record]>
                (relabelled <$> {[ "report-1" := legacy_record ]})).
Proof.
  apply (saveAnalysisResult_then_get "report-2" legacy_record legacy_browser
           {[ "report-1" := legacy_record ]}); [discriminate|reflexivity..].
Defined.

(** X7: When [removeItem] works, both reset functions empty the analysis
    results: afterwards [getAllAnalysisResults] returns the empty object and
    [getAnalysisResult] returns [null] for every file id that is not a
    property name of [Object.prototype]. *)
Theorem reset_then_reads fileId w
    (Hid : fileId ∉ Object_prototype)
    (Hrem : removeItem_throws (storage w) = false) :
  (fst (clearAllAnalysisResults w) = Normal ()
   ∧ fst (getAllAnalysisResults (snd (clearAllAnalysisResults w))) = Normal ∅
   ∧ fst (getAnalysisResult fileId (snd (clearAllAnalysisResults w))) = Normal None)
  ∧ (fst (resetAndUpdateAllScores w) = Normal ()
     ∧ fst (getAllAnalysisResults (snd (resetAndUpdateAllScores w))) = Normal ∅
     ∧ fst (getAnalysisResult fileId (snd (resetAndUpdateAllScores w))) = Normal None).
Proof.
  destruct w as [[res sec g st rm] out]. cbn in Hrem. subst rm.
  unfold clearAllAnalysisResults, resetAndUpdateAllScores, getAllAnalysisResults,
    getAnalysisResult, try_catch, mbind, JS_bind, removeItem, getItem, JSON_parse,
    console_log, console_error, mret, JS_ret. cbn -[get_property].
  destruct g; cbn -[get_property]; [done|].
  rewrite fmap_empty, (get_property_missing ∅ fileId) by apply lookup_empty.
  by rewrite decide_False.
Qed.

Lemma reset_then_reads_witness :
  (fst (clearAllAnalysisResults legacy_browser) = Normal ()
   ∧ fst (getAllAnalysisResults (snd (clearAllAnalysisResults legacy_browser))) = Normal ∅
   ∧ fst (getAnalysisResult "report-1" (snd (clearAllAnalysisResults legacy_browser)))
     = Normal None)
  ∧ (fst (resetAndUpdateAllScores legacy_browser) = Normal ()
     ∧ fst (getAllAnalysisResults (snd (resetAndUpdateAllScores legacy_browser))) = Normal ∅
     ∧ fst (getAnalysisResult "report-1" (snd (resetAndUpdateAllScores legacy_browser)))
       = Normal None).
Proof.
  apply (reset_then_reads "report-1" legacy_browser); [|reflexivity].
  unfold Object_prototype. rewrite !not_elem_of_cons. split_and!; try discriminate.
  apply not_elem_of_nil.
Defined.

(** After a reset, an ordinary id reads as [null] and 'constructor' reads as
    the function every object inherits. *)
Example reset_then_reads_ids :
  fst (getAnalysisResult "report-1" (snd (clearAllAnalysisResults legacy_browser)))
    = Normal None
  ∧ fst (getAnalysisResult "constructor" (snd (clearAllAnalysisResults legacy_browser)))
    = Normal (Some (Inherited "constructor")).
Proof. split; reflexivity. Qed.

(** ** Removing reports *)

Lemma without_fields reportId sections :
  id <$> without reportId sections = id <$> sections
  ∧ name <$> without reportId sections = name <$> sections.
Proof.
  unfold without. rewrite <- !list_fmap_compose. split; by apply list_fmap_ext.
Qed.

Lemma without_idemp reportId sections :
  without reportId (without reportId sections) = without reportId sections.
Proof.
  unfold without. rewrite <- list_fmap_compose. apply list_fmap_ext.
  intros _ s _. unfold set_reports. cbn. f_equal.
  rewrite list_filter_filter. apply list_filter_iff. tauto.
Qed.

Lemma without_other reportId other sections :
  other ≠ reportId →
  id <$> sections_holding other (without reportId sections)
  = id <$> sections_holding other sections.
Proof.
  intros Hne. unfold sections_holding, without.
  induction sections as [|s sections IH]; [done|].
  rewrite fmap_cons, !filter_cons. cbn [reports set_reports].
  assert (other ∈ filter (λ id, id ≠ reportId) (reports s) ↔ other ∈ reports s) as Hiff.
  { rewrite list_elem_of_filter. tauto. }
  destruct (decide (other ∈ reports s)) as [Hin|Hin];
    (destruct (decide (other ∈ filter (λ id, id ≠ reportId) (reports s)));
     [|]; try tauto); by rewrite ?fmap_cons, IH.
Qed.

Lemma list_find_without reportId sections :
  list_find (λ s, reportId ∈ reports s) (without reportId sections) = None.
Proof.
  apply list_find_None, Forall_forall. intros s Hs Hin.
  assert (s ∈ sections_holding reportId (without reportId sections)) as Hhold.
  { unfold sections_holding. by apply list_elem_of_filter. }
  rewrite sections_holding_without in Hhold. by apply elem_of_nil in Hhold.
Qed.

(** What [removeReportFromAllSections] leaves in the store when [setItem]
    works: the sections it could read, with the report filtered out. *)
Lemma removeReportFromAllSections_effect reportId w :
  setItem_throws (storage w) = false →
  fst (removeReportFromAllSections reportId w) = Normal ()
  ∧ storage (snd (removeReportFromAllSections reportId w))
    = set_slot SECTIONS_KEY
        (Some (Json (without reportId
                       (if getItem_throws (storage w) then []
                        else sections_of (storage w)))))
        (storage w).
Proof.
  intros Hset. js_unfold. unfold sections_of. by_cases w; try done;
    case_bool_decide; done.
Qed.

(** X8: When [localStorage] works, [removeReportFromAllSections] returns normally
    and rewrites the sections so that none lists the report, while the ids
    and names of the sections, their order, and the sections every other
    report is in stay the same. *)
Theorem removeReportFromAllSections_removes reportId w
    (Hget : getItem_throws (storage w) = false)
    (Hset : setItem_throws (storage w) = false) :
  let w' := snd (removeReportFromAllSections reportId w) in
  fst (removeReportFromAllSections reportId w) = Normal ()
  ∧ esg_report_sections (storage w') = Some (Json (sections_of (storage w')))
  ∧ sections_holding reportId (sections_of (storage w')) = []
  ∧ fst (getSectionForReport reportId w') = Normal None
  ∧ id <$> sections_of (storage w') = id <$> sections_of (storage w)
  ∧ name <$> sections_of (storage w') = name <$> sections_of (storage w)
  ∧ ∀ other, other ≠ reportId →
      id <$> sections_holding other (sections_of (storage w'))
      = id <$> sections_holding other (sections_of (storage w)).
Proof.
  intros w'. destruct (removeReportFromAllSections_effect reportId w Hset) as [Hn Hs].
  rewrite Hget in Hs. fold w' in Hs.
  assert (sections_of (storage w') = without reportId (sections_of (storage w))) as Hof
    by (by rewrite Hs).
  rewrite Hof. split_and!.
  - done.
  - by rewrite Hs.
  - apply sections_holding_without.
  - destruct (section_reads "" reportId w') as [(l & Hl & _ & Hfor) _].
    rewrite Hfor. destruct (getSections_reads w') as [Hl' _].
    rewrite Hl' in Hl. replace (getItem_throws (storage w')) with false in Hl
      by (by rewrite Hs). simplify_eq. by rewrite Hof, list_find_without.
  - apply without_fields.
  - apply without_fields.
  - intros other Hne. by apply without_other.
Qed.

Lemma removeReportFromAllSections_removes_witness :
  let w' := snd (removeReportFromAllSections "report-1" filed_browser) in
  fst (removeReportFromAllSections "report-1" filed_browser) = Normal ()
  ∧ esg_report_sections (storage w') = Some (Json (sections_of (storage w')))
  ∧ sections_holding "report-1" (sections_of (storage w')) = []
  ∧ fst (getSectionForReport "report-1" w') = Normal None
  ∧ id <$> sections_of (storage w') = id <$> sections_of (storage filed_browser)
  ∧ name <$> sections_of (storage w') = name <$> sections_of (storage filed_browser)
  ∧ ∀ other, other ≠ "report-1" →
      id <$> sections_holding other (sections_of (storage w'))
      = id <$> sections_holding other (sections_of (storage filed_browser)).
Proof.
  apply (removeReportFromAllSections_removes "report-1" filed_browser); reflexivity.
Defined.

(** X9: [removeReportFromAllSections] is idempotent on [localStorage]: a second
    call leaves the store as the first call left it, in every browser
    state. *)
Theorem removeReportFromAllSections_idempotent reportId w :
  storage (snd (removeReportFromAllSections reportId
                  (snd (removeReportFromAllSections reportId w))))
  = storage (snd (removeReportFromAllSections reportId w)).
Proof.
  destruct (setItem_throws (storage w)) eqn:Hset.
  - destruct (removeReportFromAllSections_write_failure reportId w Hset) as [_ Hs].
    assert (setItem_throws (storage (snd (removeReportFromAllSections reportId w))) = true)
      as Hset' by (by rewrite Hs).
    destruct (removeReportFromAllSections_write_failure reportId _ Hset') as [_ Hs'].
    by rewrite Hs'.
  - destruct (removeReportFromAllSections_effect reportId w Hset) as [_ Hs].
    assert (setItem_throws (storage (snd (removeReportFromAllSections reportId w))) = false)
      as Hset' by (by rewrite Hs; destruct w as [[]]).
    destruct (removeReportFromAllSections_effect reportId _ Hset') as [_ Hs'].
    rewrite Hs', Hs. destruct w as [[res sec g st rm] out]. cbn -[without].
    destruct g; cbn -[without]; [done|]. unfold sections_of; cbn -[without].
    by rewrite without_idemp.
Qed.

(** X10: When the sections cannot be read ([getItem] throws, or the text under
    'esg_report_sections' does not parse) but [setItem] works,
    [removeReportFromAllSections] returns normally and overwrites the text
    with the empty array. *)
Theorem removeReportFromAllSections_unreadable reportId w
    (Hbad : getItem_throws (storage w) = true
            ∨ esg_report_sections (storage w) = Some Malformed)
    (Hset : setItem_throws (storage w) = false) :
  fst (removeReportFromAllSections reportId w) = Normal ()
  ∧ esg_report_sections (storage (snd (removeReportFromAllSections reportId w)))
    = Some (Json []).
Proof.
  destruct (removeReportFromAllSections_effect reportId w Hset) as [Hn Hs].
  split; [done|]. rewrite Hs. cbn. unfold sections_of.
  destruct Hbad as [->| ->]; [done|]. by destruct (getItem_throws _).
Qed.

Lemma removeReportFromAllSections_unreadable_witness :
  fst (removeReportFromAllSections "report-1" (browser None (Some Malformed))) = Normal ()
  ∧ esg_report_sections
      (storage (snd (removeReportFromAllSections "report-1" (browser None (Some Malformed)))))
    = Some (Json []).
Proof.
  apply (removeReportFromAllSections_unreadable "report-1" (browser None (Some Malformed)));
    [right|]; reflexivity.
Defined.

(** X11: When [localStorage] works and the analysis results parse,
    [deleteReport] returns normally; afterwards the stored results are the
    old ones without the record of the report, the sections are those of
    before with the report filtered out, the report is in no section, and
    [getAnalysisResult] of the report returns [null], except that for a
    property name of [Object.prototype] it returns what every object
    inherits under that name. *)
Theorem deleteReport_removes reportId w (old : gmap string AnalysisResult)
    (Hget : getItem_throws (storage w) = false)
    (Hset : setItem_throws (storage w) = false)
    (Hold : records_of (storage w) = Some old) :
  let w' := snd (deleteReport reportId w) in
  fst (deleteReport reportId w) = Normal ()
  ∧ records_of (storage w') = Some (delete reportId old)
  ∧ sections_of (storage w') = without reportId (sections_of (storage w))
  ∧ fst (getAnalysisResult reportId w')
    = Normal (if decide (reportId ∈ Object_prototype)
              then Some (Inherited reportId) else None)
  ∧ fst (getSectionForReport reportId w') = Normal None.
Proof.
  intros w'.
  assert (fst (deleteReport reportId w) = Normal ()
          ∧ getItem_throws (storage w') = false
          ∧ records_of (storage w') = Some (delete reportId old)
          ∧ sections_of (storage w') = without reportId (sections_of (storage w)))
    as (Hn & Hget' & Hrec & Hsec).
  { subst w'. unfold records_of in Hold.
    unfold deleteReport, try_catch, mbind, JS_bind, getItem, JSON_parse, JSON_stringify,
      setItem, mret, JS_ret, throw.
    rewrite Hget. cbn [slot].
    destruct (esg_analysis_results (storage w)) as [[| |stored]|] eqn:Hres;
      simplify_eq; cbn [or_text].
    all: case_decide as Hsome.
    all: rewrite ?Hset.
    all: match goal with
         | |- context [removeReportFromAllSections ?r ?w1] =>
             destruct (removeReportFromAllSections_effect r w1) as [Hn Hs];
               [done|];
             destruct (removeReportFromAllSections r w1) as [[[]|e] w2];
               cbn in Hn, Hs; simplify_eq; cbn [fst snd]; rewrite Hs
         end.
    all: cbn -[get_property]; rewrite ?Hget; unfold records_of, sections_of;
      cbn -[get_property]; rewrite ?Hres; split_and!; try done.
    all: try (by rewrite delete_empty).
    rewrite delete_id; [done|]. unfold get_property in Hsome.
    destruct (old !! reportId); [exfalso; apply Hsome; eauto|done]. }
  split_and!; try done.
  - rewrite (getAnalysisResult_stored _ _ _ Hget' Hrec). cbn [fst]. f_equal.
    apply get_property_missing, lookup_delete_eq.
  - destruct (section_reads "" reportId w') as [(l & Hl & _ & Hfor) _].
    rewrite Hfor. destruct (getSections_reads w') as [Hl' _].
    rewrite Hl', Hget' in Hl. simplify_eq. by rewrite Hsec, list_find_without.
Qed.

Lemma deleteReport_removes_witness :
  let w' := snd (deleteReport "report-1" legacy_browser) in
  fst (deleteReport "report-1" legacy_browser) = Normal ()
  ∧ records_of (storage w') = Some (delete "report-1" {[ "report-1" := legacy_record ]})
  ∧ sections_of (storage w') = without "report-1" (sections_of (storage legacy_browser))
  ∧ fst (getAnalysisResult "report-1" w')
    = Normal (if decide ("report-1" ∈ Object_prototype)
              then Some (Inherited "report-1") else None)
  ∧ fst (getSectionForReport "report-1" w') = Normal None.
Proof.
  apply (deleteReport_removes "report-1" legacy_browser {[ "report-1" := legacy_record ]});
    reflexivity.
Defined.

(** Deleting a report whose id is 'constructor', which has no record:
    [results[reportId]] is the inherited function, so the results text is
    written back, and [getAnalysisResult] of that id still finds the
    function. *)
Example deleteReport_inherited_id :
  esg_analysis_results (storage (snd (deleteReport "constructor" (browser None None))))
    = Some (Json ∅)
  ∧ fst (getAnalysisResult "constructor" (snd (deleteReport "constructor" (browser None None))))
    = Normal (Some (Inherited "constructor")).
Proof. split; reflexivity. Qed.

(** X12: When the analysis results cannot be read ([getItem] throws, or the text
    under 'esg_analysis_results' does not parse), [deleteReport] throws
    before it reaches the sections: [localStorage] is unchanged, so the
    report stays in whatever section it was in. *)
Theorem deleteReport_aborts reportId w
    (Hbad : getItem_throws (storage w) = true
            ∨ esg_analysis_results (storage w) = Some Malformed) :
  fst (deleteReport reportId w) = Throw (Error "Failed to delete report")
  ∧ storage (snd (deleteReport reportId w)) = storage w.
Proof.
  unfold deleteReport, try_catch, mbind, JS_bind, getItem, JSON_parse, throw,
    console_error, mret, JS_ret.
  destruct (getItem_throws (storage w)) eqn:Hget; [done|].
  destruct Hbad as [?|Hbad]; [done|]. cbn [slot]. by rewrite Hbad.
Qed.

Lemma deleteReport_aborts_witness :
  fst (deleteReport "report-1" (browser (Some Malformed) (esg_report_sections (storage filed_browser))))
    = Throw (Error "Failed to delete report")
  ∧ storage (snd (deleteReport "report-1"
                    (browser (Some Malformed) (esg_report_sections (storage filed_browser)))))
    = storage (browser (Some Malformed) (esg_report_sections (storage filed_browser))).
Proof.
  apply (deleteReport_aborts "report-1"
           (browser (Some Malformed) (esg_report_sections (storage filed_browser)))).
  right. reflexivity.
Defined.

(** ** Sections *)

Lemma getSectionById_of sectionId w :
  getItem_throws (storage w) = false →
  fst (getSectionById sectionId w)
  = Normal (snd <$> list_find (λ s, id s = sectionId) (sections_of (storage w))).
Proof.
  intros Hget. destruct (section_reads sectionId "" w) as [(l & Hl & Hby & _) _].
  destruct (getSections_reads w) as [Hl' _]. rewrite Hl', Hget in Hl. by simplify_eq.
Qed.

Lemma getSectionForReport_of reportId w :
  getItem_throws (storage w) = false →
  fst (getSectionForReport reportId w)
  = Normal (snd <$> list_find (λ s, reportId ∈ reports s) (sections_of (storage w))).
Proof.
  intros Hget. destruct (section_reads "" reportId w) as [(l & Hl & _ & Hfor) _].
  destruct (getSections_reads w) as [Hl' _]. rewrite Hl', Hget in Hl. by simplify_eq.
Qed.

Lemma list_find_snoc_not {A} (P : A → Prop) `{!∀ x, Decision (P x)} (l : list A) x :
  ¬ P x → snd <$> list_find P (l ++ [x]) = snd <$> list_find P l.
Proof.
  intros Hx. destruct (list_find P l) as [[i y]|] eqn:Hfind.
  - by rewrite (list_find_app_l _ _ _ _ _ Hfind).
  - rewrite (list_find_app_r _ _ _ Hfind). cbn. by case_decide.
Qed.

(** With [setItem] working, an operation that reads the sections, finds the
    first one with the given id and writes the array back with that element
    replaced. *)
Lemma found_and_replaced (op : JS ()) (msg err : string) sectionId
    (change : Section → Section) w i section :
  op = try_catch
         (sections ← getSections;
          match list_find (λ s, id s = sectionId) sections with
          | Some (i, section) =>
              setItem SECTIONS_KEY (JSON_stringify (<[i := change section]> sections))
          | None => mret ()
          end)
         (λ error, console_error msg;; throw (Error err)) →
  getItem_throws (storage w) = false →
  setItem_throws (storage w) = false →
  list_find (λ s, id s = sectionId) (sections_of (storage w)) = Some (i, section) →
  fst (op w) = Normal ()
  ∧ storage (snd (op w))
    = set_slot SECTIONS_KEY (Some (Json (<[i := change section]> (sections_of (storage w)))))
        (storage w).
Proof.
  intros -> Hget Hset Hfind. unfold try_catch, mbind, JS_bind.
  destruct (getSections_reads w) as [Hl Hs]. rewrite Hget in Hl.
  destruct (getSections w) as [[l|e] w1]; cbn in Hl, Hs; simplify_eq.
  rewrite Hfind. unfold setItem. rewrite Hs, Hset. done.
Qed.

(** X13: Addressing a section id that [getSectionById] does not find does
    nothing: [addReportToSection], [updateSectionName] and
    [removeReportFromSection] return normally and leave [localStorage] as it
    was (in particular the report is not removed from the section it is
    in). *)
Theorem missing_section_is_noop reportId sectionId (name : string) w
    (Hmiss : fst (getSectionById sectionId w) = Normal None) :
  (fst (addReportToSection reportId sectionId w) = Normal ()
   ∧ storage (snd (addReportToSection reportId sectionId w)) = storage w)
  ∧ (fst (updateSectionName sectionId name w) = Normal ()
     ∧ storage (snd (updateSectionName sectionId name w)) = storage w)
  ∧ (fst (removeReportFromSection reportId sectionId w) = Normal ()
     ∧ storage (snd (removeReportFromSection reportId sectionId w)) = storage w).
Proof.
  destruct (section_reads sectionId "" w) as [(l & Hl & Hby & _) [Hs _]].
  rewrite Hby in Hmiss.
  assert (list_find (λ s, id s = sectionId) l = None) as Hfind.
  { destruct (list_find _ l); [done|reflexivity]. }
  unfold addReportToSection, updateSectionName, removeReportFromSection,
    try_catch, mbind, JS_bind.
  destruct (getSections w) as [[l'|e] w1]; cbn in Hl, Hs; simplify_eq.
  rewrite Hfind. done.
Qed.

Lemma missing_section_is_noop_witness :
  (fst (addReportToSection "report-1" "section_9" filed_browser) = Normal ()
   ∧ storage (snd (addReportToSection "report-1" "section_9" filed_browser))
     = storage filed_browser)
  ∧ (fst (updateSectionName "section_9" "Water" filed_browser) = Normal ()
     ∧ storage (snd (updateSectionName "section_9" "Water" filed_browser))
       = storage filed_browser)
  ∧ (fst (removeReportFromSection "report-1" "section_9" filed_browser) = Normal ()
     ∧ storage (snd (removeReportFromSection "report-1" "section_9" filed_browser))
       = storage filed_browser).
Proof.
  apply (missing_section_is_noop "report-1" "section_9" "Water" filed_browser).
  reflexivity.
Defined.

(** X14: When [localStorage] works and no section has the id 'section_' + now
    yet, [createSection] returns the new, empty section, appends it after
    the existing sections, and [getSectionById] of its id then returns it;
    lookups of other ids and the section of every report are as before. *)
Theorem createSection_appends (now name : string) w
    (Hget : getItem_throws (storage w) = false)
    (Hset : setItem_throws (storage w) = false)
    (Hfresh : Forall (λ s, id s ≠ "section_" +:+ now) (sections_of (storage w))) :
  let newSection := {| id := "section_" +:+ now; name := name; reports := [] |} in
  let w' := snd (createSection now name w) in
  fst (createSection now name w) = Normal newSection
  ∧ sections_of (storage w') = sections_of (storage w) ++ [newSection]
  ∧ fst (getSectionById (id newSection) w') = Normal (Some newSection)
  ∧ (∀ other, other ≠ id newSection →
       fst (getSectionById other w') = fst (getSectionById other w))
  ∧ (∀ reportId, fst (getSectionForReport reportId w') = fst (getSectionForReport reportId w)).
Proof.
  intros newSection w'.
  assert (fst (createSection now name w) = Normal newSection
          ∧ storage w' = set_slot SECTIONS_KEY
                           (Some (Json (sections_of (storage w) ++ [newSection])))
                           (storage w)) as [Hn Hs].
  { subst w'. unfold createSection, try_catch, mbind, JS_bind.
    destruct (getSections_reads w) as [Hl Hs]. rewrite Hget in Hl.
    destruct (getSections w) as [[l|e] w1]; cbn in Hl, Hs; simplify_eq.
    unfold setItem. rewrite Hs, Hset. done. }
  assert (getItem_throws (storage w') = false) as Hget' by (by rewrite Hs).
  assert (sections_of (storage w') = sections_of (storage w) ++ [newSection]) as Hof
    by (by rewrite Hs).
  split_and!; try done.
  - rewrite (getSectionById_of _ _ Hget'), Hof.
    assert (list_find (λ s, id s = "section_" +:+ now) (sections_of (storage w)) = None)
      as Hnone by (by apply list_find_None).
    rewrite (list_find_app_r _ _ _ Hnone). cbn. by case_decide.
  - intros other Hne.
    rewrite (getSectionById_of _ _ Hget'), (getSectionById_of _ _ Hget), Hof.
    f_equal. apply list_find_snoc_not. intros Heq. by apply Hne.
  - intros reportId.
    rewrite (getSectionForReport_of _ _ Hget'), (getSectionForReport_of _ _ Hget), Hof.
    f_equal. apply list_find_snoc_not. cbn. apply not_elem_of_nil.
Qed.

Lemma createSection_appends_witness :
  let newSection := {| id := "section_" +:+ "3"; name := "Water"; reports := [] |} in
  let w' := snd (createSection "3" "Water" filed_browser) in
  fst (createSection "3" "Water" filed_browser) = Normal newSection
  ∧ sections_of (storage w') = sections_of (storage filed_browser) ++ [newSection]
  ∧ fst (getSectionById (id newSection) w') = Normal (Some newSection)
  ∧ (∀ other, other ≠ id newSection →
       fst (getSectionById other w') = fst (getSectionById other filed_browser))
  ∧ (∀ reportId, fst (getSectionForReport reportId w')
                 = fst (getSectionForReport reportId filed_browser)).
Proof.
  apply (createSection_appends "3" "Water" filed_browser); [reflexivity..|].
  repeat constructor; discriminate.
Defined.

Lemma list_find_filter_other (sectionId other : string) sections :
  other ≠ sectionId →
  snd <$> list_find (λ s, id s = other) (filter (λ s, id s ≠ sectionId) sections)
  = snd <$> list_find (λ s, id s = other) sections.
Proof.
  intros Hne. induction sections as [|s sections IH]; [done|].
  rewrite filter_cons. destruct (decide (id s ≠ sectionId)) as [Hs|Hs]; cbn.
  - case_decide; [done|].
    destruct (list_find _ (filter _ sections)) as [[]|], (list_find _ sections) as [[]|];
      by simplify_eq/=.
  - case_decide as Hs'; [exfalso; apply Hs; intros ?; apply Hne; congruence|].
    rewrite IH. by destruct (list_find _ sections) as [[]|].
Qed.

(** X15: When [localStorage] works, [deleteSection] returns normally and removes
    every section with the given id, so that [getSectionById] of that id
    finds nothing afterwards; lookups of the other ids are as before.  The
    reports listed in a deleted section are not moved anywhere. *)
Theorem deleteSection_removes sectionId w
    (Hget : getItem_throws (storage w) = false)
    (Hset : setItem_throws (storage w) = false) :
  let w' := snd (deleteSection sectionId w) in
  fst (deleteSection sectionId w) = Normal ()
  ∧ sections_of (storage w') = filter (λ s, id s ≠ sectionId) (sections_of (storage w))
  ∧ fst (getSectionById sectionId w') = Normal None
  ∧ (∀ other, other ≠ sectionId →
       fst (getSectionById other w') = fst (getSectionById other w))
  ∧ esg_analysis_results (storage w') = esg_analysis_results (storage w).
Proof.
  intros w'.
  assert (fst (deleteSection sectionId w) = Normal ()
          ∧ storage w' = set_slot SECTIONS_KEY
                           (Some (Json (filter (λ s, id s ≠ sectionId) (sections_of (storage w)))))
                           (storage w)) as [Hn Hs].
  { subst w'. unfold deleteSection, try_catch, mbind, JS_bind.
    destruct (getSections_reads w) as [Hl Hs]. rewrite Hget in Hl.
    destruct (getSections w) as [[l|e] w1]; cbn in Hl, Hs; simplify_eq.
    unfold setItem. rewrite Hs, Hset. done. }
  assert (getItem_throws (storage w') = false) as Hget' by (by rewrite Hs).
  assert (sections_of (storage w')
          = filter (λ s, id s ≠ sectionId) (sections_of (storage w))) as Hof
    by (by rewrite Hs).
  split_and!; try done.
  - rewrite (getSectionById_of _ _ Hget'), Hof.
    assert (list_find (λ s, id s = sectionId)
              (filter (λ s, id s ≠ sectionId) (sections_of (storage w))) = None) as ->;
      [|done].
    apply list_find_None, Forall_forall. intros s [Hs' _]%list_elem_of_filter. done.
  - intros other Hne.
    rewrite (getSectionById_of _ _ Hget'), (getSectionById_of _ _ Hget), Hof.
    f_equal. by apply list_find_filter_other.
  - by rewrite Hs.
Qed.

Lemma deleteSection_removes_witness :
  let w' := snd (deleteSection "section_1" filed_browser) in
  fst (deleteSection "section_1" filed_browser) = Normal ()
  ∧ sections_of (storage w')
    = filter (λ s, id s ≠ "section_1") (sections_of (storage filed_browser))
  ∧ fst (getSectionById "section_1" w') = Normal None
  ∧ (∀ other, other ≠ "section_1" →
       fst (getSectionById other w') = fst (getSectionById other filed_browser))
  ∧ esg_analysis_results (storage w') = esg_analysis_results (storage filed_browser).
Proof. apply (deleteSection_removes "section_1" filed_browser); reflexivity. Defined.

Lemma list_find_replaced sectionId sections i section (section' : Section) :
  list_find (λ s, id s = sectionId) sections = Some (i, section) →
  id section' = sectionId →
  list_find (λ s, id s = sectionId) (<[i := section']> sections) = Some (i, section').
Proof.
  intros (Hi & Hid & Hleast)%list_find_Some Hid'.
  apply list_find_insert_Some. right; left.
  split_and!; try done; eauto using lookup_lt_Some.
Qed.

(** X16: When [localStorage] works and a section with the given id exists,
    [updateSectionName] returns normally and renames the first such section:
    [getSectionById] then returns it under the new name with the same
    reports, and the ids and the report lists of all sections are
    unchanged. *)
Theorem updateSectionName_renames sectionId (name : string) w i section
    (Hget : getItem_throws (storage w) = false)
    (Hset : setItem_throws (storage w) = false)
    (Hfind : list_find (λ s, id s = sectionId) (sections_of (storage w)) = Some (i, section)) :
  let w' := snd (updateSectionName sectionId name w) in
  fst (updateSectionName sectionId name w) = Normal ()
  ∧ fst (getSectionById sectionId w')
    = Normal (Some {| id := sectionId; name := name; reports := reports section |})
  ∧ id <$> sections_of (storage w') = id <$> sections_of (storage w)
  ∧ reports <$> sections_of (storage w') = reports <$> sections_of (storage w)
  ∧ length (sections_of (storage w')) = length (sections_of (storage w)).
Proof.
  intros w'.
  destruct (found_and_replaced (updateSectionName sectionId name) _ _ sectionId
              (set_name name) w i section eq_refl Hget Hset Hfind) as [Hn Hs].
  fold w' in Hs.
  assert (getItem_throws (storage w') = false) as Hget' by (by rewrite Hs).
  assert (sections_of (storage w') = <[i := set_name name section]> (sections_of (storage w)))
    as Hof by (by rewrite Hs).
  pose proof Hfind as (Hi & Hid & _)%list_find_Some.
  split_and!; try done.
  - rewrite (getSectionById_of _ _ Hget'), Hof.
    rewrite (list_find_replaced _ _ _ _ (set_name name section) Hfind Hid). cbn.
    unfold set_name. by rewrite Hid.
  - rewrite Hof, list_fmap_insert. apply list_insert_id. by rewrite list_lookup_fmap, Hi.
  - rewrite Hof, list_fmap_insert. apply list_insert_id. by rewrite list_lookup_fmap, Hi.
  - by rewrite Hof, length_insert.
Qed.

Lemma updateSectionName_renames_witness :
  let w' := snd (updateSectionName "section_2" "Water" filed_browser) in
  fst (updateSectionName "section_2" "Water" filed_browser) = Normal ()
  ∧ fst (getSectionById "section_2" w')
    = Normal (Some {| id := "section_2"; name := "Water";
                      reports := reports {| id := "section_2"; name := "Mining"; reports := [] |} |})
  ∧ id <$> sections_of (storage w') = id <$> sections_of (storage filed_browser)
  ∧ reports <$> sections_of (storage w') = reports <$> sections_of (storage filed_browser)
  ∧ length (sections_of (storage w')) = length (sections_of (storage filed_browser)).
Proof.
  apply (updateSectionName_renames "section_2" "Water" filed_browser 1%nat
           {| id := "section_2"; name := "Mining"; reports := [] |}); reflexivity.
Defined.

(** X17: When [localStorage] works and a section with the given id exists,
    [removeReportFromSection] returns normally and takes the report out of
    the first such section only: that section no longer lists it, keeps its
    other reports in order, and every other section is left as it was. *)
Theorem removeReportFromSection_removes reportId sectionId w i section
    (Hget : getItem_throws (storage w) = false)
    (Hset : setItem_throws (storage w) = false)
    (Hfind : list_find (λ s, id s = sectionId) (sections_of (storage w)) = Some (i, section)) :
  let w' := snd (removeReportFromSection reportId sectionId w) in
  fst (removeReportFromSection reportId sectionId w) = Normal ()
  ∧ (∃ section', fst (getSectionById sectionId w') = Normal (Some section')
       ∧ (sections_of (storage w') !! i = Some section')
       ∧ name section' = name section
       ∧ (reportId ∉ reports section')
       ∧ reports section' = filter (λ id, id ≠ reportId) (reports section))
  ∧ (∀ j, j ≠ i → (sections_of (storage w')) !! j = (sections_of (storage w)) !! j)
  ∧ length (sections_of (storage w')) = length (sections_of (storage w)).
Proof.
  intros w'.
  destruct (found_and_replaced (removeReportFromSection reportId sectionId) _ _ sectionId
              (λ section, set_reports (filter (λ id, id ≠ reportId) (reports section)) section)
              w i section eq_refl Hget Hset Hfind) as [Hn Hs].
  fold w' in Hs.
  assert (getItem_throws (storage w') = false) as Hget' by (by rewrite Hs).
  assert (sections_of (storage w')
          = <[i := set_reports (filter (λ id, id ≠ reportId) (reports section)) section]>
              (sections_of (storage w)))
    as Hof by (by rewrite Hs).
  pose proof Hfind as (Hi & Hid & _)%list_find_Some.
  split_and!; try done.
  - exists (set_reports (filter (λ id, id ≠ reportId) (reports section)) section).
    rewrite (getSectionById_of _ _ Hget'), Hof.
    rewrite (list_find_replaced _ _ _ _
               (set_reports (filter (λ id, id ≠ reportId) (reports section)) section)
               Hfind Hid).
    cbn. split_and!; try done.
    + apply list_lookup_insert_eq. by eapply lookup_lt_Some.
    + rewrite list_elem_of_filter. tauto.
  - intros j Hj. rewrite Hof. by apply list_lookup_insert_ne.
  - by rewrite Hof, length_insert.
Qed.

Lemma removeReportFromSection_removes_witness :
  let w' := snd (removeReportFromSection "report-1" "section_1" filed_browser) in
  fst (removeReportFromSection "report-1" "section_1" filed_browser) = Normal ()
  ∧ (∃ section', fst (getSectionById "section_1" w') = Normal (Some section')
       ∧ (sections_of (storage w') !! 0%nat = Some section')
       ∧ name section' = name {| id := "section_1"; name := "Energy"; reports := ["report-1"] |}
       ∧ ("report-1" ∉ reports section')
       ∧ reports section'
         = filter (λ id, id ≠ "report-1")
             (reports {| id := "section_1"; name := "Energy"; reports := ["report-1"] |}))
  ∧ (∀ j, j ≠ 0%nat →
       (sections_of (storage w')) !! j = (sections_of (storage filed_browser)) !! j)
  ∧ length (sections_of (storage w')) = length (sections_of (storage filed_browser)).
Proof.
  apply (removeReportFromSection_removes "report-1" "section_1" filed_browser 0%nat
           {| id := "section_1"; name := "Energy"; reports := ["report-1"] |}); reflexivity.
Defined.

Lemma addReportToSection_getItem reportId sectionId w :
  getItem_throws (storage (snd (addReportToSection reportId sectionId w)))
  = getItem_throws (storage w).
Proof.
  js_unfold. by_cases w; try done; repeat (case_match; simplify_eq/=; try done).
Qed.

Lemma sections_holding_insert reportId sections i (section' : Section) :
  sections_holding reportId sections = [] →
  (i < length sections)%nat →
  reportId ∈ reports section' →
  sections_holding reportId (<[i := section']> sections) = [section'].
Proof.
  unfold sections_holding. revert i.
  induction sections as [|s sections IH]; intros i Hnone Hi Hin; cbn in Hi; [lia|].
  rewrite filter_cons in Hnone. case_decide as Hs; [done|].
  destruct i as [|i].
  - change (<[0%nat := section']> (s :: sections)) with (section' :: sections).
    by rewrite filter_cons_True, Hnone.
  - change (<[S i := section']> (s :: sections)) with (s :: <[i := section']> sections).
    rewrite filter_cons_False by done. apply IH; [done|lia|done].
Qed.

(** X18: When [localStorage] works, the target section exists and the report is
    in no section yet, [addReportToSection] returns normally and appends the
    report to the reports of the first section with the given id; afterwards
    the report is in exactly that one section, which [getSectionForReport]
    returns. *)
Theorem addReportToSection_files reportId sectionId w i section
    (Hget : getItem_throws (storage w) = false)
    (Hset : setItem_throws (storage w) = false)
    (Hfind : list_find (λ s, id s = sectionId) (sections_of (storage w)) = Some (i, section))
    (Hunfiled : sections_holding reportId (sections_of (storage w)) = []) :
  let w' := snd (addReportToSection reportId sectionId w) in
  let section' := {| id := sectionId; name := name section;
                     reports := reports section ++ [reportId] |} in
  fst (addReportToSection reportId sectionId w) = Normal ()
  ∧ sections_of (storage w') = <[i := section']> (sections_of (storage w))
  ∧ sections_holding reportId (sections_of (storage w')) = [section']
  ∧ fst (getSectionForReport reportId w') = Normal (Some section').
Proof.
  intros w' section'.
  pose proof Hfind as (Hi & Hid & _)%list_find_Some.
  assert (reportId ∉ reports section) as Hnotin.
  { intros Hin. assert (section ∈ sections_holding reportId (sections_of (storage w))) as Hh.
    { unfold sections_holding. apply list_elem_of_filter. split; [done|].
      by eapply list_elem_of_lookup_2. }
    rewrite Hunfiled in Hh. by apply elem_of_nil in Hh. }
  assert (set_reports (reports section ++ [reportId]) section = section') as Hsec'.
  { unfold set_reports, section'. by rewrite Hid. }
  assert (esg_report_sections (storage w) = Some (Json (sections_of (storage w)))) as Hjson.
  { unfold sections_of in *. by destruct (esg_report_sections (storage w)) as [[| |l]|]. }
  destruct (addReportToSection_writes reportId sectionId w _ i section Hget Hset Hjson Hfind)
    as [Hn Hs].
  fold w' in Hs. rewrite decide_False, Hsec' in Hs by done.
  assert (sections_of (storage w') = <[i := section']> (sections_of (storage w))) as Hof.
  { unfold sections_of at 1. by rewrite Hs. }
  assert (sections_holding reportId (sections_of (storage w')) = [section']) as Hhold.
  { rewrite Hof. apply sections_holding_insert; [done|by eapply lookup_lt_Some|].
    cbn. apply elem_of_app. right. by apply list_elem_of_singleton. }
  assert (getItem_throws (storage w') = false) as Hget'
    by (subst w'; by rewrite addReportToSection_getItem).
  split_and!; try done.
  rewrite (getSectionForReport_of _ _ Hget').
  destruct (list_find (λ s, reportId ∈ reports s) (sections_of (storage w')))
    as [[j s]|] eqn:Hf.
  - apply list_find_Some in Hf as (Hj & Hin & _).
    assert (s ∈ sections_holding reportId (sections_of (storage w'))) as Hh.
    { unfold sections_holding. apply list_elem_of_filter. split; [done|].
      by eapply list_elem_of_lookup_2. }
    rewrite Hhold in Hh. apply list_elem_of_singleton in Hh. by subst.
  - apply list_find_None in Hf.
    assert (section' ∈ sections_holding reportId (sections_of (storage w'))) as Hh
      by (rewrite Hhold; by apply list_elem_of_singleton).
    unfold sections_holding in Hh. apply list_elem_of_filter in Hh as [Hin Hel].
    rewrite Forall_forall in Hf. by destruct (Hf _ Hel).
Qed.

Lemma addReportToSection_files_witness :
  let w' := snd (addReportToSection "report-2" "section_2" filed_browser) in
  let section' := {| id := "section_2";
                     name := name {| id := "section_2"; name := "Mining"; reports := [] |};
                     reports := reports {| id := "section_2"; name := "Mining"; reports := [] |}
                                ++ ["report-2"] |} in
  fst (addReportToSection "report-2" "section_2" filed_browser) = Normal ()
  ∧ sections_of (storage w') = <[1%nat := section']> (sections_of (storage filed_browser))
  ∧ sections_holding "report-2" (sections_of (storage w')) = [section']
  ∧ fst (getSectionForReport "report-2" w') = Normal (Some section').
Proof.
  apply (addReportToSection_files "report-2" "section_2" filed_browser 1%nat
           {| id := "section_2"; name := "Mining"; reports := [] |}); reflexivity.
Defined.

End StorageFacts.

(** * From the analysis to the stored record and the views *)

Section Views.

Implicit Types (pdfText : string) (parsedResult out : ParsedResult)
  (l : list FlaggedStatement) (w : Browser).

Lemma analyzeESGReport_array pdfText parsedResult l out :
  analyzeESGReport pdfText (GeneratedText (Some parsedResult)) = Normal out →
  flagged_statements parsedResult = FlaggedArray l →
  out = {| confidence_score := calculateGreenwashingScore l;
           Gemini.classification :=
             if decide (calculateGreenwashingScore l > 70) then "Major" else "Minor";
           flagged_statements := FlaggedArray l |}.
Proof.
  unfold analyzeESGReport. case_decide; [done|]. intros Hout Hl.
  rewrite Hl in Hout. by simplify_eq.
Qed.

(** X19: When the output of [analyzeESGReport] on an array of flagged statements
    is saved the way the PDF viewer saves it, under a file id other than
    '__proto__', the record read back has the calculator's score and the
    label of the threshold 55, whatever label the analysis carried; an
    analysis labelled Major is always stored as Major. *)
Theorem analysis_saved_with_threshold_55 pdfText parsedResult l out (fileId : string) w
    (old : gmap string AnalysisResult)
    (Hkey : fileId ≠ "__proto__")
    (Hout : analyzeESGReport pdfText (GeneratedText (Some parsedResult)) = Normal out)
    (Hl : flagged_statements parsedResult = FlaggedArray l)
    (Hget : getItem_throws (storage w) = false)
    (Hset : setItem_throws (storage w) = false)
    (Hold : records_of (storage w) = Some old) :
  fst (getAnalysisResult fileId (snd (saveAnalysisResult fileId (saved_from out) w)))
  = Normal (Some {| Storage.classification :=
                      if decide (calculateGreenwashingScore l > 55) then "Major" else "Minor";
                    confidenceScore := calculateGreenwashingScore l |})
  ∧ (Gemini.classification out = "Major" → calculateGreenwashingScore l > 55).
Proof.
  rewrite (analyzeESGReport_array _ _ _ _ Hout Hl).
  rewrite (saveAnalysisResult_effect _ _ _ _ Hget Hset Hold). cbn [snd].
  split.
  - erewrite getAnalysisResult_stored; [|done|reflexivity]. cbn [fst].
    rewrite set_property_insert by done.
    by erewrite get_property_own by apply lookup_insert_eq.
  - cbn. case_decide; [lia|done].
Qed.

Lemma analysis_saved_with_threshold_55_witness :
  fst (getAnalysisResult "report-1"
         (snd (saveAnalysisResult "report-1"
                 (saved_from {| confidence_score := 70; Gemini.classification := "Minor";
                                flagged_statements := FlaggedArray four_major |})
                 legacy_browser)))
  = Normal (Some {| Storage.classification :=
                      if decide (calculateGreenwashingScore four_major > 55)
                      then "Major" else "Minor";
                    confidenceScore := calculateGreenwashingScore four_major |})
  ∧ (Gemini.classification {| confidence_score := 70; Gemini.classification := "Minor";
                              flagged_statements := FlaggedArray four_major |} = "Major" →
     calculateGreenwashingScore four_major > 55).
Proof.
  apply (analysis_saved_with_threshold_55 "report text" reply_four_major four_major
           {| confidence_score := 70; Gemini.classification := "Minor";
              flagged_statements := FlaggedArray four_major |}
           "report-1" legacy_browser {[ "report-1" := legacy_record ]});
    [discriminate|reflexivity..].
Defined.

(** X20: The popup derives its risk label from the score with the same test as
    [analyzeESGReport]: for every output computed from an array of flagged
    statements, [getGreenwashingRisk] and [getOverallClassification] show the
    classification the output carries. *)
Theorem popup_shows_analysis_label pdfText parsedResult l out
    (Hout : analyzeESGReport pdfText (GeneratedText (Some parsedResult)) = Normal out)
    (Hl : flagged_statements parsedResult = FlaggedArray l) :
  fst (GeminiESGPopup.getGreenwashingRisk (confidence_score out)) = Gemini.classification out
  ∧ fst (GeminiESGPopup.getOverallClassification (confidence_score out))
    = Gemini.classification out +:+ " cross checking needed".
Proof.
  rewrite (analyzeESGReport_array _ _ _ _ Hout Hl). cbn.
  unfold GeminiESGPopup.getGreenwashingRisk, GeminiESGPopup.getOverallClassification.
  by case_decide.
Qed.

Lemma popup_shows_analysis_label_witness :
  fst (GeminiESGPopup.getGreenwashingRisk
         (confidence_score {| confidence_score := 70; Gemini.classification := "Minor";
                              flagged_statements := FlaggedArray four_major |}))
  = Gemini.classification {| confidence_score := 70; Gemini.classification := "Minor";
                             flagged_statements := FlaggedArray four_major |}
  ∧ fst (GeminiESGPopup.getOverallClassification
           (confidence_score {| confidence_score := 70; Gemini.classification := "Minor";
                                flagged_statements := FlaggedArray four_major |}))
    = Gemini.classification {| confidence_score := 70; Gemini.classification := "Minor";
                               flagged_statements := FlaggedArray four_major |}
      +:+ " cross checking needed".
Proof.
  apply (popup_shows_analysis_label "report text" reply_four_major four_major
           {| confidence_score := 70; Gemini.classification := "Minor";
              flagged_statements := FlaggedArray four_major |}); reflexivity.
Defined.

(** X21: Starting from 100, every run of clicks on the zoom buttons keeps the zoom
    a multiple of 25 between 50 and 200. *)
Theorem zoom_stays_in_range (clicks : list zoom_click) :
  50 ≤ zoom_after clicks ≤ 200 ∧ zoom_after clicks `mod` 25 = 0.
Proof.
  unfold zoom_after.
  assert (50 ≤ PDFViewer.initialZoom ≤ 200 ∧ PDFViewer.initialZoom `mod` 25 = 0) as Hinit
    by (unfold PDFViewer.initialZoom; split; [lia|reflexivity]).
  revert Hinit. generalize PDFViewer.initialZoom as z.
  induction clicks as [|click clicks IH]; intros z Hz; [done|].
  cbn [foldl]. apply IH. destruct Hz as [Hrange Hmod].
  apply Z.mod_divide in Hmod as [k ->]; [|done].
  destruct click; unfold zoom_step, PDFViewer.handleZoomIn, PDFViewer.handleZoomOut.
  - destruct (Z.min_spec (k * 25 + 25) 200) as [[? ->]|[? ->]]; (split; [lia|]);
      [|reflexivity].
    replace (k * 25 + 25) with ((k + 1) * 25) by lia. apply Z_mod_mult.
  - destruct (Z.max_spec (k * 25 - 25) 50) as [[? ->]|[? ->]]; (split; [lia|]);
      [reflexivity|].
    replace (k * 25 - 25) with ((k - 1) * 25) by lia. apply Z_mod_mult.
Qed.

End Views.

(** * The dashboard (ESGDashboard.tsx, ESGCard.tsx) *)

Section Dashboard.

Import ESGDashboard.

Implicit Types (report : ESGReport) (reports : list ESGReport) (w : Browser).

Lemma one_group report :
  declared report →
  (isMajor report = true ∧ isMinor report = false ∧ isUncategorized report = false
     ∧ truthy (sectionId report) = false)
  ∨ (isMajor report = false ∧ isMinor report = true ∧ isUncategorized report = false
       ∧ truthy (sectionId report) = false)
  ∨ (isMajor report = false ∧ isMinor report = false ∧ isUncategorized report = true
       ∧ truthy (sectionId report) = false)
  ∨ (isMajor report = false ∧ isMinor report = false ∧ isUncategorized report = false
       ∧ truthy (sectionId report) = true).
Proof.
  unfold declared, isMajor, isMinor, isUncategorized.
  destruct (truthy (sectionId report)).
  { intros _. right; right; right. by rewrite !andb_false_r. }
  rewrite !andb_true_r.
  destruct (confidenceScore report) as [score|]; intros [->|[-> | ->]]; cbn;
    repeat case_bool_decide; try done; try lia; auto.
Qed.

Lemma section_cards reports (sectionId' : string) :
  (let sectionReports := getReportsForSection reports sectionId' in
   if decide (length sectionReports = 0%nat) then [] else sectionReports)
  = getReportsForSection reports sectionId'.
Proof.
  cbn. case_decide as Hlen; [|done].
  by destruct (getReportsForSection reports sectionId').
Qed.

Lemma section_cards_other report reports (sections : list Section) :
  (∀ section, section ∈ sections → sectionId report ≠ Some (Storage.id section)) →
  concat ((λ section, getReportsForSection (report :: reports) (Storage.id section))
            <$> sections)
  = concat ((λ section, getReportsForSection reports (Storage.id section)) <$> sections).
Proof.
  intros Hother. f_equal. apply list_fmap_ext. intros i section Hi.
  unfold getReportsForSection. rewrite filter_cons.
  case_decide as Heq; [|done]. destruct (Hother section); [|done].
  by eapply list_elem_of_lookup_2.
Qed.

Lemma section_cards_here report reports (sections : list Section) section :
  NoDup (Storage.id <$> sections) →
  section ∈ sections →
  sectionId report = Some (Storage.id section) →
  concat ((λ section, getReportsForSection (report :: reports) (Storage.id section))
            <$> sections)
  ≡ₚ report :: concat ((λ section, getReportsForSection reports (Storage.id section))
                         <$> sections).
Proof.
  intros Hids Hin Hsec.
  induction sections as [|first sections IH]; [by apply elem_of_nil in Hin|].
  rewrite fmap_cons in Hids. apply NoDup_cons in Hids as [Hfirst Hids].
  rewrite !fmap_cons. cbn [concat].
  unfold getReportsForSection at 1. rewrite filter_cons.
  case_decide as Heq.
  - rewrite section_cards_other; [done|].
    intros other Hother Hsame. apply Hfirst.
    rewrite Heq in Hsame. simplify_eq. rewrite Hsame.
    by apply list_elem_of_fmap_2.
  - apply elem_of_cons in Hin as [->|Hin]; [done|].
    rewrite IH by done. by rewrite Permutation_middle.
Qed.

(** X22: The dashboard shows every report exactly once when the sections have
    distinct, non-empty ids and every report with a section id names one of
    them: for reports whose classification is of its declared type, the
    cards rendered (per section the reports of that section, then the Major,
    the Minor and the uncategorized group) are a rearrangement of the list
    of reports. *)
Theorem dashboard_groups_partition (sections : list Section) reports
    (Hdecl : Forall declared reports)
    (Hids : NoDup (Storage.id <$> sections))
    (Hempty : "" ∉ Storage.id <$> sections)
    (Hfiled : Forall (filed_in sections) reports) :
  reports ≡ₚ cards sections reports.
Proof.
  unfold cards.
  rewrite (list_fmap_ext _
             (λ section, getReportsForSection reports (Storage.id section)) sections)
    by (intros; apply section_cards).
  unfold majorReports, minorReports, uncategorizedReports.
  induction Hdecl as [|report reports Hr _ IH].
  { cbn. clear. induction sections as [|? ? IH]; [done|]. by rewrite fmap_cons. }
  apply Forall_cons in Hfiled as [Hf Hfiled]. specialize (IH Hfiled).
  rewrite !filter_cons.
  destruct (one_group report Hr) as [(-> & -> & -> & Hs)|[(-> & -> & -> & Hs)
    |[(-> & -> & -> & Hs)|(-> & -> & -> & Hs)]]]; cbn [Is_true];
    repeat case_decide; try done.
  4: { destruct (Hf Hs) as (section & Hin & Hsec).
       rewrite (section_cards_here _ _ _ section) by done.
       rewrite <- app_comm_cons. by constructor. }
  all: rewrite section_cards_other;
    [|intros section Hin Hsec; rewrite Hsec in Hs; cbn in Hs;
      destruct (Storage.id section) eqn:Hid; [|done];
      apply Hempty; rewrite <- Hid; by apply list_elem_of_fmap_2].
  - rewrite <- app_comm_cons, <- Permutation_middle. by constructor.
  - rewrite <- app_comm_cons, (assoc (++)), <- Permutation_middle, <- (assoc (++)).
    by constructor.
  - rewrite !(assoc (++)), <- Permutation_middle, <- !(assoc (++)). by constructor.
Qed.

Lemma dashboard_groups_partition_witness :
  four_reports ≡ₚ cards two_sections four_reports.
Proof.
  apply (dashboard_groups_partition two_sections four_reports).
  - repeat (apply List.Forall_cons; [unfold declared; cbn; auto|]). apply List.Forall_nil.
  - cbn. repeat (apply NoDup_cons; split; [rewrite ?elem_of_cons, elem_of_nil;
      intros H; repeat destruct H as [H|H]; done|]). apply NoDup_nil_2.
  - cbn. rewrite !elem_of_cons, elem_of_nil. intros H; repeat destruct H as [H|H]; done.
  - repeat (apply List.Forall_cons; [unfold filed_in; cbn; try done|]);
      [|apply List.Forall_nil].
    intros _.
    exists {| Storage.id := "section_2"; name := "Mining"; Storage.reports := ["4"] |}.
    split; [|reflexivity]. apply list_elem_of_further, list_elem_of_here.
Defined.

(** With two sections of one id, or a section whose id is the empty string,
    a report is rendered on two cards. *)
Example cards_render_twice :
  cards [ {| Storage.id := "section_2"; name := "Energy"; Storage.reports := [] |};
          {| Storage.id := "section_2"; name := "Mining"; Storage.reports := ["4"] |} ]
        [ card_report "4" (Some "Major") (Some 85) (Some "section_2") ]
  = [ card_report "4" (Some "Major") (Some 85) (Some "section_2");
      card_report "4" (Some "Major") (Some 85) (Some "section_2") ]
  ∧ cards [ {| Storage.id := EmptyString; name := "Energy"; Storage.reports := [] |} ]
          [ card_report "4" (Some "Major") (Some 85) (Some EmptyString) ]
    = [ card_report "4" (Some "Major") (Some 85) (Some EmptyString);
        card_report "4" (Some "Major") (Some 85) (Some EmptyString) ].
Proof. split; reflexivity. Qed.

Section Loading.

Variables (getCategoryIcon formatDate : string → string).

Lemma getAllAnalysisResults_relabelled w (results : gmap string AnalysisResult)
    (fileId : string) (result : AnalysisResult) :
  fst (getAllAnalysisResults w) = Normal results →
  results !! fileId = Some result →
  result = relabelled result.
Proof.
  unfold getAllAnalysisResults, try_catch, mbind, JS_bind, getItem, JSON_parse,
    mret, JS_ret, throw, console_error.
  destruct (getItem_throws (storage w)); cbn.
  { intros; simplify_map_eq. }
  destruct (esg_analysis_results (storage w)) as [[| |stored]|]; cbn;
    intros; simplify_map_eq.
  destruct (stored !! fileId) as [r|]; simplify_eq/=.
  unfold relabelled. destruct (decide (Storage.confidenceScore r > 55)); cbn;
    by case_decide.
Qed.

Lemma JS_bind_run {A B} (m : JS A) (f : A → JS B) w a w' :
  m w = (Normal a, w') → (m ≫= f) w = f a w'.
Proof. intros Hm. unfold mbind, JS_bind. by rewrite Hm. Qed.

Lemma toReport_runs results pdf w :
  ∃ w', toReport getCategoryIcon formatDate results pdf w
        = (Normal (built getCategoryIcon formatDate results (readable w) pdf), w')
    ∧ storage w' = storage w.
Proof.
  unfold toReport, mbind, JS_bind.
  destruct (section_reads "" (pdf_id pdf) w) as [(l & Hl & _ & Hfor) (_ & _ & Hs)].
  destruct (getSections_reads w) as [Hl' _]. rewrite Hl' in Hl. simplify_eq.
  destruct (getSectionForReport (pdf_id pdf) w) as [[section|e] w1];
    cbn in Hfor, Hs; simplify_eq. by exists w1.
Qed.

Lemma mapM_toReport_runs results (data : list PDFMetadata) w :
  ∃ w', mapM (toReport getCategoryIcon formatDate results) data w
        = (Normal (built getCategoryIcon formatDate results (readable w) <$> data), w')
    ∧ storage w' = storage w.
Proof.
  revert w. induction data as [|pdf data IH]; intros w; [by exists w|].
  cbn [mapM].
  destruct (toReport_runs results pdf w) as (w1 & Hr & Hs).
  destruct (IH w1) as (w2 & Hrs & Hs').
  rewrite (JS_bind_run _ _ _ _ _ Hr), (JS_bind_run _ _ _ _ _ Hrs).
  assert (readable w1 = readable w) as -> by (unfold readable; by rewrite Hs).
  exists w2. split; [done|congruence].
Qed.

Lemma built_labels (results : gmap string AnalysisResult) (l : list Section)
    (pdf : PDFMetadata) :
  (∀ fileId result, results !! fileId = Some result → result = relabelled result) →
  let report := built getCategoryIcon formatDate results l pdf in
  declared report
  ∧ ESGCard.classification (classification report) (confidenceScore report)
    = classification report
  ∧ isMajor report
    = bool_decide (ESGCard.classification (classification report)
                     (confidenceScore report) = Some "Major")
      && negb (truthy (sectionId report))
  ∧ isMinor report
    = bool_decide (ESGCard.classification (classification report)
                     (confidenceScore report) = Some "Minor")
      && negb (truthy (sectionId report)).
Proof.
  intros Hrel report. subst report.
  unfold built, declared, isMajor, isMinor, ESGCard.classification.
  cbn [classification confidenceScore sectionId].
  destruct (truthy _); rewrite ?andb_false_r, ?andb_true_r;
    (destruct (results !! pdf_id pdf) as [result|] eqn:Hlook;
     [rewrite (Hrel _ _ Hlook); unfold relabelled; cbn [fmap option_fmap option_map
        Storage.classification Storage.confidenceScore];
      case_decide; repeat case_bool_decide; try done; try lia; split_and!; auto
     |cbn [fmap option_fmap option_map]; repeat case_bool_decide; try done;
      split_and!; auto]).
Qed.

(** X23: A successful load never throws and never writes to [localStorage].  It
    ends the loading state without a toast, shows the sections
    [getSections] returns and one report per PDF of the reply, in the same
    order and with the same ids; the classification of each report is of its
    declared type and is the one the card derives from the score, so the
    group a report is listed in is the one its badge shows. *)
Theorem loadReportsAndSections_loads (data : list PDFMetadata) (st : State) w :
  ∃ st',
    fst (loadReportsAndSections getCategoryIcon formatDate (Pdfs data) st w) = Normal st'
    ∧ storage (snd (loadReportsAndSections getCategoryIcon formatDate (Pdfs data) st w))
      = storage w
    ∧ isLoading st' = false
    ∧ toasts st' = toasts st
    ∧ fst (getSections w) = Normal (sections st')
    ∧ id <$> reports st' = pdf_id <$> data
    ∧ Forall (λ report,
        declared report
        ∧ ESGCard.classification (classification report) (confidenceScore report)
          = classification report
        ∧ isMajor report
          = bool_decide (ESGCard.classification (classification report)
                           (confidenceScore report) = Some "Major")
            && negb (truthy (sectionId report))
        ∧ isMinor report
          = bool_decide (ESGCard.classification (classification report)
                           (confidenceScore report) = Some "Minor")
            && negb (truthy (sectionId report))) (reports st').
Proof.
  destruct (getAllAnalysisResults_normal w) as [results Hres].
  pose proof (getAllAnalysisResults_storage w) as Hs0.
  pose proof (getAllAnalysisResults_relabelled w results) as Hrel.
  destruct (getAllAnalysisResults w) as [[results'|e] w0] eqn:Hall; cbn in Hres, Hs0, Hrel;
    simplify_eq.
  destruct (getSections_reads w0) as [Hl Hs1].
  assert (fst (getSections w) = Normal (readable w0)) as Hsec.
  { destruct (getSections_reads w) as [-> _]. unfold readable. by rewrite Hs0. }
  destruct (getSections w0) as [[l|e] w1] eqn:Hget; cbn in Hl, Hs1; simplify_eq.
  destruct (mapM_toReport_runs results data w1) as (w2 & Hmap & Hs2).
  assert (∀ {A B} (body : JS A) (handler : exn → JS A) (k : A → JS B) a w',
            body w = (Normal a, w') → (try_catch body handler ≫= k) w = k a w') as Htry.
  { intros A B body handler k a w' Hb. unfold mbind, JS_bind, try_catch. by rewrite Hb. }
  unfold loadReportsAndSections.
  erewrite Htry; last first.
  { rewrite (JS_bind_run _ _ _ _ _ Hall), (JS_bind_run _ _ _ _ _ Hget),
      (JS_bind_run _ _ _ _ _ Hmap). reflexivity. }
  unfold mret, JS_ret.
  eexists. split; [reflexivity|]. cbn. split_and!; try done; try congruence.
  - rewrite <- list_fmap_compose. by apply list_fmap_ext.
  - apply Forall_fmap, Forall_forall. intros pdf _. apply built_labels.
    intros fileId result. by apply Hrel.
Qed.

End Loading.

(** X24: When the fetch of the PDF list fails, [loadReportsAndSections] does not
    throw: it keeps the reports and sections that were shown, ends the
    loading state, shows the toast 'Failed to load reports', logs to the
    console and leaves [localStorage] untouched. *)
Theorem loadReportsAndSections_fails (getCategoryIcon formatDate : string → string)
    (reply : PdfsReply) (st : State) w
    (Hfail : reply = FetchRejected ∨ reply = NotOk) :
  loadReportsAndSections getCategoryIcon formatDate reply st w
  = (Normal {| reports := reports st; sections := sections st; isLoading := false;
               toasts := toasts st ++ ["Failed to load reports"] |},
     {| storage := storage w; console := Storage.console w ++ ["Error fetching PDFs:"] |}).
Proof. destruct Hfail as [-> | ->]; reflexivity. Qed.

Lemma loadReportsAndSections_fails_witness :
  let st := {| reports := []; sections := []; isLoading := false; toasts := [] |} in
  loadReportsAndSections (λ _, "icon") (λ d, d) NotOk st legacy_browser
  = (Normal {| reports := reports st; sections := sections st; isLoading := false;
               toasts := toasts st ++ ["Failed to load reports"] |},
     {| storage := storage legacy_browser;
        console := Storage.console legacy_browser ++ ["Error fetching PDFs:"] |}).
Proof.
  intros st. apply (loadReportsAndSections_fails (λ _, "icon") (λ d, d) NotOk st legacy_browser).
  right. reflexivity.
Defined.

End Dashboard.

(** * The upload server (server.js) *)

Section UploadServer.

Import Server.

Implicit Types (d : Disk) (req : UploadRequest) (now iso : string).

Lemma readDB_console d : pdfs_json (snd (readDB d)) = pdfs_json d
  ∧ readFileSync_throws (snd (readDB d)) = readFileSync_throws d
  ∧ writeFileSync_throws (snd (readDB d)) = writeFileSync_throws d.
Proof.
  unfold readDB. destruct (readFileSync_throws d) eqn:Hr; [by rewrite ?Hr|].
  destruct (pdfs_json d) as [[| |db]|] eqn:Hj; cbn; by rewrite ?Hr, ?Hj.
Qed.

Lemma readDB_readable d (db : DB) :
  readFileSync_throws d = false → pdfs_json d = Some (Json db) → readDB d = (db, d).
Proof. intros Hr Hj. unfold readDB. by rewrite Hr, Hj. Qed.

Lemma list_find_snoc_fresh (now : string) (l : list PdfData) (p : PdfData) :
  Forall (λ q, id q ≠ now) l → id p = now →
  snd <$> list_find (λ q, id q = now) (l ++ [p]) = Some p.
Proof.
  intros Hfresh Hp.
  assert (list_find (λ q, id q = now) l = None) as Hnone by (by apply list_find_None).
  rewrite (list_find_app_r _ _ _ Hnone). cbn. by case_decide.
Qed.

(** X25: When the database file can be read and written and no stored PDF has the
    id [now] yet, an upload with a file answers 200 and appends the metadata
    of the file to the PDFs that [readDB] returned; GET /api/pdfs/[now] then
    answers 200 with that metadata, the other ids are answered as before, and
    GET /api/pdfs lists the old PDFs followed by the new one. *)
Theorem upload_then_get now iso req (file' : File) d
    (Hfile : file req = Some file')
    (Hread : readFileSync_throws d = false)
    (Hwrite : writeFileSync_throws d = false)
    (Hfresh : Forall (λ p, id p ≠ now) (pdfs (fst (readDB d)))) :
  let d' := snd (upload now iso req d) in
  let pdfData := stored_metadata now iso req file' in
  fst (upload now iso req d)
    = {| status := 200;
         body := UploadedBody "File uploaded successfully" (originalname file')
                   ("/uploads/" +:+ filename file') |}
  ∧ fst (get_pdf now d') = {| status := 200; body := PdfBody pdfData |}
  ∧ (∀ other, other ≠ now → fst (get_pdf other d') = fst (get_pdf other d))
  ∧ fst (get_pdfs d')
    = {| status := 200; body := PdfsBody (pdfs (fst (readDB d)) ++ [pdfData]) |}.
Proof.
  intros d' pdfData.
  assert (fst (upload now iso req d)
            = {| status := 200;
                 body := UploadedBody "File uploaded successfully" (originalname file')
                           ("/uploads/" +:+ filename file') |}
          ∧ readDB d' = ({| pdfs := pdfs (fst (readDB d)) ++ [pdfData] |}, d')) as [Hresp Hdb].
  { subst d'. unfold upload. rewrite Hfile.
    destruct (readDB_console d) as (Hj & Hr & Hw).
    destruct (readDB d) as [db d1]; cbn [fst snd] in *.
    unfold writeDB. rewrite Hw, Hwrite. cbn [fst snd]. split; [done|].
    apply readDB_readable; cbn; [by rewrite Hr|done]. }
  split; [done|]. unfold get_pdf, get_pdfs. rewrite Hdb. cbn [pdfs].
  split_and!.
  - pose proof (list_find_snoc_fresh now _ pdfData Hfresh eq_refl) as Hf.
    destruct (list_find (λ p, id p = now) (pdfs (fst (readDB d)) ++ [pdfData]))
      as [[j p]|]; by simplify_eq/=.
  - intros other Hne. destruct (readDB d) as [db d1]; cbn [fst pdfs] in *.
    assert (snd <$> list_find (λ p, id p = other) (pdfs db ++ [pdfData])
            = snd <$> list_find (λ p, id p = other) (pdfs db)) as Hsame.
    { apply list_find_snoc_not. cbn. congruence. }
    destruct (list_find _ (pdfs db ++ [pdfData])) as [[j p]|],
             (list_find _ (pdfs db)) as [[j' p']|]; by simplify_eq/=.
  - done.
Qed.

Lemma upload_then_get_witness :
  let d' := snd (upload "1700000000000" "2023-11-14T22:13:20.000Z" upload_request fresh_disk) in
  let pdfData :=
    stored_metadata "1700000000000" "2023-11-14T22:13:20.000Z" upload_request report_pdf in
  fst (upload "1700000000000" "2023-11-14T22:13:20.000Z" upload_request fresh_disk)
    = {| status := 200;
         body := UploadedBody "File uploaded successfully" (originalname report_pdf)
                   ("/uploads/" +:+ filename report_pdf) |}
  ∧ fst (get_pdf "1700000000000" d') = {| status := 200; body := PdfBody pdfData |}
  ∧ (∀ other, other ≠ "1700000000000" →
       fst (get_pdf other d') = fst (get_pdf other fresh_disk))
  ∧ fst (get_pdfs d')
    = {| status := 200; body := PdfsBody (pdfs (fst (readDB fresh_disk)) ++ [pdfData]) |}.
Proof.
  apply (upload_then_get "1700000000000" "2023-11-14T22:13:20.000Z" upload_request
           report_pdf fresh_disk); try reflexivity.
  apply List.Forall_nil.
Defined.

(** A falsy title falls back to the original file name without its first
    '.pdf', and a missing category to 'Uncategorized'. *)
Example stored_metadata_defaults :
  stored_metadata "1700000000000" "2023-11-14T22:13:20.000Z" upload_request report_pdf
  = {| id := "1700000000000"; fileName := "report.pdf";
       filePath := "/uploads/1700000000000-report.pdf"; title := "report";
       category := "Uncategorized"; description := "";
       uploadDate := "2023-11-14T22:13:20.000Z"; sources := 1 |}.
Proof. reflexivity. Qed.

(** X26: When the database file cannot be written, an upload with a file still
    answers 200 'File uploaded successfully', although the database file is
    left as it was: the failure of [writeDB] only reaches the console. *)
Theorem upload_unwritable now iso req (file' : File) d
    (Hfile : file req = Some file')
    (Hwrite : writeFileSync_throws d = true) :
  status (fst (upload now iso req d)) = 200
  ∧ body (fst (upload now iso req d))
    = UploadedBody "File uploaded successfully" (originalname file')
        ("/uploads/" +:+ filename file')
  ∧ pdfs_json (snd (upload now iso req d)) = pdfs_json d
  ∧ last (console (snd (upload now iso req d))) = Some "Error writing to database file:".
Proof.
  unfold upload. rewrite Hfile.
  destruct (readDB_console d) as (Hj & Hr & Hw).
  destruct (readDB d) as [db d1]; cbn [fst snd] in *.
  unfold writeDB. rewrite Hw, Hwrite. cbn. split_and!; try done.
  by rewrite last_snoc.
Qed.

Lemma upload_unwritable_witness :
  let d := {| pdfs_json := pdfs_json fresh_disk; readFileSync_throws := false;
              writeFileSync_throws := true; console := [] |} in
  status (fst (upload "1700000000000" "2023-11-14T22:13:20.000Z" upload_request d)) = 200
  ∧ body (fst (upload "1700000000000" "2023-11-14T22:13:20.000Z" upload_request d))
    = UploadedBody "File uploaded successfully" (originalname report_pdf)
        ("/uploads/" +:+ filename report_pdf)
  ∧ pdfs_json (snd (upload "1700000000000" "2023-11-14T22:13:20.000Z" upload_request d))
    = pdfs_json d
  ∧ last (console (snd (upload "1700000000000" "2023-11-14T22:13:20.000Z" upload_request d)))
    = Some "Error writing to database file:".
Proof.
  intros d.
  apply (upload_unwritable "1700000000000" "2023-11-14T22:13:20.000Z" upload_request
           report_pdf d); reflexivity.
Defined.

(** X27: When the database file cannot be read (missing, unreadable, empty or not
    JSON), the server does not fail: GET /api/pdfs answers 200 with an empty
    list and GET /api/pdfs/:id answers 404; and an upload that can write
    replaces the unreadable file by a database holding only the new PDF. *)
Theorem unreadable_database now iso req (file' : File) (id' : string) d
    (Hbad : readFileSync_throws d = true
            ∨ pdfs_json d = None
            ∨ pdfs_json d = Some EmptyText
            ∨ pdfs_json d = Some Malformed)
    (Hfile : file req = Some file')
    (Hwrite : writeFileSync_throws d = false) :
  fst (get_pdfs d) = {| status := 200; body := PdfsBody [] |}
  ∧ fst (get_pdf id' d) = {| status := 404; body := ErrorBody "PDF not found" |}
  ∧ pdfs_json (snd (upload now iso req d))
    = Some (Json {| pdfs := [stored_metadata now iso req file'] |}).
Proof.
  assert (fst (readDB d) = {| pdfs := [] |}) as Hdb.
  { unfold readDB. destruct (readFileSync_throws d); [done|].
    destruct Hbad as [?|[-> |[-> | ->]]]; done. }
  unfold get_pdfs, get_pdf, upload. rewrite Hfile.
  destruct (readDB_console d) as (Hj & Hr & Hw).
  destruct (readDB d) as [db d1]; cbn [fst snd] in *. subst db. cbn.
  unfold writeDB. by rewrite Hw, Hwrite.
Qed.

Lemma unreadable_database_witness :
  let d := {| pdfs_json := Some Malformed; readFileSync_throws := false;
              writeFileSync_throws := false; console := [] |} in
  fst (get_pdfs d) = {| status := 200; body := PdfsBody [] |}
  ∧ fst (get_pdf "1700000000000" d) = {| status := 404; body := ErrorBody "PDF not found" |}
  ∧ pdfs_json (snd (upload "1700000000000" "2023-11-14T22:13:20.000Z" upload_request d))
    = Some (Json {| pdfs := [stored_metadata "1700000000000" "2023-11-14T22:13:20.000Z"
                               upload_request report_pdf] |}).
Proof.
  intros d.
  apply (unreadable_database "1700000000000" "2023-11-14T22:13:20.000Z" upload_request
           report_pdf "1700000000000" d); [|reflexivity..].
  right; right; right. reflexivity.
Defined.

End UploadServer.
